(** * gumo.logging: a shallow embedding of [gumo/logging/__init__.py]

    The development follows the layout of the Python module: the string
    primitives the module calls, the part of the standard [logging] package
    that [LoggerManager._build_logger] and [GumoLogger._log] drive, then the
    two classes [GumoLogger] and [LoggerManager], and finally the theorems.

    Python strings are modelled as [string] (sequences of [ascii]); every
    separator the module searches for (['/'], [';']) is a single ASCII
    character.  Python integers are [Z].  Exceptions are values of [PyExn]
    carried by the [result] monad. *)

From Stdlib Require Import ZArith Lia List DecimalString.
From stdpp Require Import base option strings list gmap.

Local Open Scope string_scope.
Local Open Scope Z_scope.

(** ** Exceptions and the error monad *)

Inductive PyExn : Type :=
| ValueError (msg : string)
| IndexError (msg : string)
| AttributeError (msg : string)
| Unmodelled (what : string).

Inductive result (A : Type) : Type :=
| Ok (a : A)
| Raise (e : PyExn).

Arguments Ok {A} a.
Arguments Raise {A} e.

#[global] Instance result_ret : MRet result := fun A a => Ok a.
#[global] Instance result_bind : MBind result := fun A B f m =>
  match m with
  | Ok a => f a
  | Raise e => Raise e
  end.

Definition raises {A} (m : result A) : bool :=
  match m with
  | Ok _ => false
  | Raise _ => true
  end.

(** ** Python [str] methods used by the module *)

Module PyStr.

(** The two separator characters of a trace header, ['/'] and [';']. *)
Definition slash : Ascii.ascii := Ascii.ascii_of_nat 47.
Definition semicolon : Ascii.ascii := Ascii.ascii_of_nat 59.

(** The line feed, ['\n']. *)
Definition nl : string := String (Ascii.ascii_of_nat 10) EmptyString.

(** [s.startswith(p)] *)
Fixpoint startswith (s p : string) {struct p} : bool :=
  match p with
  | EmptyString => true
  | String c p' =>
      match s with
      | EmptyString => false
      | String d s' => if Ascii.eqb c d then startswith s' p' else false
      end
  end.

(** [s.find(sub)]: the lowest index where [sub] occurs, [-1] when it does
    not. *)
Fixpoint find_from (s sub : string) (i : Z) : Z :=
  if startswith s sub then i
  else match s with
       | EmptyString => -1
       | String _ s' => find_from s' sub (i + 1)
       end.

Definition find (s sub : string) : Z := find_from s sub 0.

(** The left-to-right scan behind [s.split(sep)] for a non-empty [sep]:
    [skip] counts the characters of a separator just matched that are still
    to be passed over, [cur] is the piece being accumulated. *)
Fixpoint split_scan (s sep : string) (skip : nat) (cur : string) : list string :=
  match s with
  | EmptyString => [cur]
  | String c s' =>
      match skip with
      | S k => split_scan s' sep k cur
      | O =>
          if startswith s sep
          then cur :: split_scan s' sep (Nat.pred (String.length sep)) EmptyString
          else split_scan s' sep O (cur +:+ String c EmptyString)
      end
  end.

(** [s.split(sep)] with no [maxsplit]: every occurrence of [sep] splits.
    An empty separator raises. *)
Definition split (s sep : string) : result (list string) :=
  match sep with
  | EmptyString => Raise (ValueError "empty separator")
  | _ => Ok (split_scan s sep O EmptyString)
  end.

(** The scan behind [s.replace(old, new)] for a non-empty [old]: every
    non-overlapping occurrence, left to right, is replaced. *)
Fixpoint replace_scan (s old new : string) (skip : nat) : string :=
  match s with
  | EmptyString => EmptyString
  | String c s' =>
      match skip with
      | S k => replace_scan s' old new k
      | O =>
          if startswith s old
          then new +:+ replace_scan s' old new (Nat.pred (String.length old))
          else String c (replace_scan s' old new O)
      end
  end.

(** With an empty [old], Python inserts [new] before every character and
    at the end. *)
Fixpoint interleave (s new : string) : string :=
  match s with
  | EmptyString => new
  | String c s' => new +:+ String c (interleave s' new)
  end.

Definition replace (s old new : string) : string :=
  match old with
  | EmptyString => interleave s new
  | _ => replace_scan s old new O
  end.

(** [sep.join(parts)] *)
Definition join (sep : string) (parts : list string) : string :=
  String.concat sep parts.

(** [str(n)] for an [int]. *)
Definition of_int (n : Z) : string := NilZero.string_of_int (Z.to_int n).

(** How an optional string is rendered inside an f-string or by
    [str.format]: [None] prints as the word [None]. *)
Definition format_opt (o : option string) : string :=
  match o with
  | Some s => s
  | None => "None"
  end.

(** [s] contains the character [c]. *)
Fixpoint has_char (c : Ascii.ascii) (s : string) : bool :=
  match s with
  | EmptyString => false
  | String d s' => if Ascii.eqb c d then true else has_char c s'
  end.

(** The number of occurrences of the character [c] in [s]. *)
Fixpoint count_char (c : Ascii.ascii) (s : string) : nat :=
  match s with
  | EmptyString => O
  | String d s' => if Ascii.eqb c d then S (count_char c s') else count_char c s'
  end.

End PyStr.

(** ** Sequence operations that can raise *)

(** [a, b = parts] *)
Definition unpack2 (parts : list string) : result (string * string) :=
  match parts with
  | [a; b] => Ok (a, b)
  | _ :: _ :: _ :: _ => Raise (ValueError "too many values to unpack (expected 2)")
  | _ => Raise (ValueError "not enough values to unpack (expected 2)")
  end.

(** [parts[i]] for a non-negative literal index. *)
Definition index (parts : list string) (i : nat) : result string :=
  match parts !! i with
  | Some s => Ok s
  | None => Raise (IndexError "list index out of range")
  end.

(** ** [LoggerContext] *)

Record LoggerContext : Type := mkLoggerContext {
  trace : option string;
  span_id : option string;
}.

(** ** Values stored in a log payload

    The payload is a Python [dict] with string keys; insertion order is kept
    because [json.dumps] prints the keys in that order.  Its values are
    strings, integers and one nested [dict] (the source location). *)

#[warnings="-register-all"]
Inductive pyval : Type :=
| VStr (s : string)
| VInt (n : Z)
| VDict (d : list (string * pyval)).

Abbreviation dict := (list (string * pyval)).

(** [d.get(k)] *)
Fixpoint dict_get (d : dict) (k : string) : option pyval :=
  match d with
  | [] => None
  | (k', v) :: d' => if String.eqb k' k then Some v else dict_get d' k
  end.

(** [d[k] = v]: an existing key keeps its position, a new one goes last. *)
Fixpoint dict_set (d : dict) (k : string) (v : pyval) : dict :=
  match d with
  | [] => [(k, v)]
  | (k', v') :: d' =>
      if String.eqb k' k then (k', v) :: d' else (k', v') :: dict_set d' k v
  end.

(** [v.get(k, default)] where [v] is whatever a lookup returned: only a
    [dict] has the method. *)
Definition val_get (v : pyval) (k : string) (default : pyval) : result pyval :=
  match v with
  | VDict d => Ok (match dict_get d k with Some x => x | None => default end)
  | VStr _ => Raise (AttributeError "'str' object has no attribute 'get'")
  | VInt _ => Raise (AttributeError "'int' object has no attribute 'get'")
  end.

(** [v.replace(old, new)]: only a [str] has the method. *)
Definition val_replace (v : pyval) (old new : string) : result string :=
  match v with
  | VStr s => Ok (PyStr.replace s old new)
  | VInt _ => Raise (AttributeError "'int' object has no attribute 'replace'")
  | VDict _ => Raise (AttributeError "'dict' object has no attribute 'replace'")
  end.

(** What [str.format] prints for a field.  An absent value is [None].  The
    [repr] of a nested [dict] is outside the model: no payload built by this
    module puts a [dict] in a printed field. *)
Definition val_format (v : option pyval) : result string :=
  match v with
  | None => Ok "None"
  | Some (VStr s) => Ok s
  | Some (VInt n) => Ok (PyStr.of_int n)
  | Some (VDict _) => Raise (Unmodelled "repr of a dict")
  end.

(** ** [json.dumps(d, ensure_ascii=False)]

    Strings are quoted; the quote, the backslash and the control characters
    below 0x20 are escaped, every other character is copied. *)

Module Json.

Definition dquote : string := String (Ascii.ascii_of_nat 34) EmptyString.
Definition backslash : string := String (Ascii.ascii_of_nat 92) EmptyString.

Definition hex_digit (n : nat) : string :=
  match n with
  | 0 => "0" | 1 => "1" | 2 => "2" | 3 => "3" | 4 => "4" | 5 => "5"
  | 6 => "6" | 7 => "7" | 8 => "8" | 9 => "9" | 10 => "a" | 11 => "b"
  | 12 => "c" | 13 => "d" | 14 => "e" | _ => "f"
  end%nat.

Definition escape_char (c : Ascii.ascii) : string :=
  let n := Ascii.nat_of_ascii c in
  if (n =? 34)%nat then backslash +:+ dquote
  else if (n =? 92)%nat then backslash +:+ backslash
  else if (n =? 8)%nat then backslash +:+ "b"
  else if (n =? 12)%nat then backslash +:+ "f"
  else if (n =? 10)%nat then backslash +:+ "n"
  else if (n =? 13)%nat then backslash +:+ "r"
  else if (n =? 9)%nat then backslash +:+ "t"
  else if (n <? 32)%nat
       then backslash +:+ "u00" +:+ hex_digit (n / 16) +:+ hex_digit (n mod 16)
  else String c EmptyString.

Fixpoint escape (s : string) : string :=
  match s with
  | EmptyString => EmptyString
  | String c s' => escape_char c +:+ escape s'
  end.

Definition encode_str (s : string) : string := dquote +:+ escape s +:+ dquote.

Fixpoint dumps (v : pyval) : string :=
  match v with
  | VStr s => encode_str s
  | VInt n => PyStr.of_int n
  | VDict d =>
      "{" +:+
      PyStr.join ", "
        (map (fun kv => let '(k, x) := kv in encode_str k +:+ ": " +:+ dumps x) d)
      +:+ "}"
  end.

End Json.

(** ** The part of the standard [logging] package the module drives

    Loggers live in a process-wide registry keyed by name
    ([logging.getLogger(name)] returns the one object registered under
    [name]), so a reference to a logger is its name.  The names used here
    have no dot: the parent of every named logger is the root logger. *)

Module Logging.

Definition NOTSET : Z := 0.
Definition DEBUG : Z := 10.
Definition INFO : Z := 20.
Definition WARNING : Z := 30.
Definition ERROR : Z := 40.
Definition CRITICAL : Z := 50.
Definition FATAL : Z := CRITICAL.

(** [logging.getLevelName(level)] with the default level table. *)
Definition getLevelName (level : Z) : string :=
  if level =? CRITICAL then "CRITICAL"
  else if level =? ERROR then "ERROR"
  else if level =? WARNING then "WARNING"
  else if level =? INFO then "INFO"
  else if level =? DEBUG then "DEBUG"
  else if level =? NOTSET then "NOTSET"
  else "Level " +:+ PyStr.of_int level.

(** [sys.stdout] and [sys.stderr]. *)
Inductive Stream : Type := Stdout | Stderr.

#[global] Instance Stream_eq_dec : EqDecision Stream.
Proof. solve_decision. Defined.

Record Formatter : Type := mkFormatter { fmt : string }.

Record Handler : Type := mkHandler {
  handler_id : nat;
  handler_stream : Stream;
  handler_level : Z;
  handler_formatter : option Formatter;
}.

Record Logger : Type := mkLogger {
  propagate : bool;
  level : Z;
  handlers : list Handler;
}.

(** A stream: what [write] has buffered and what [flush] has delivered. *)
Record StreamState : Type := mkStreamState {
  buffered : list string;
  delivered : list string;
}.

Record Store : Type := mkStore {
  loggerDict : gmap string Logger;
  root : Logger;
  next_handler_id : nat;
  stdout : StreamState;
  stderr : StreamState;
}.

(** The state of a fresh interpreter: no named logger, the root logger at
    [WARNING] with no handler, nothing written. *)
Definition initial : Store :=
  mkStore ∅ (mkLogger true WARNING []) O (mkStreamState [] []) (mkStreamState [] []).

Definition stream_state (st : Store) (s : Stream) : StreamState :=
  match s with
  | Stdout => stdout st
  | Stderr => stderr st
  end.

Definition set_stream (st : Store) (s : Stream) (x : StreamState) : Store :=
  match s with
  | Stdout => mkStore (loggerDict st) (root st) (next_handler_id st) x (stderr st)
  | Stderr => mkStore (loggerDict st) (root st) (next_handler_id st) (stdout st) x
  end.

Definition set_loggers (st : Store) (d : gmap string Logger) : Store :=
  mkStore d (root st) (next_handler_id st) (stdout st) (stderr st).

(** [stream.write(text)] *)
Definition write (s : Stream) (text : string) (st : Store) : Store :=
  let x := stream_state st s in
  set_stream st s (mkStreamState (buffered x ++ [text]) (delivered x)).

(** [stream.flush()] *)
Definition flush (s : Stream) (st : Store) : Store :=
  let x := stream_state st s in
  set_stream st s (mkStreamState [] (delivered x ++ buffered x)).

(** Everything a stream has received, delivered or still buffered. *)
Definition output (st : Store) (s : Stream) : list string :=
  delivered (stream_state st s) ++ buffered (stream_state st s).

(** [logging.StreamHandler(stream=stream)]: a new handler object. *)
Definition StreamHandler (s : Stream) (st : Store) : Handler * Store :=
  (mkHandler (next_handler_id st) s NOTSET None,
   mkStore (loggerDict st) (root st) (S (next_handler_id st)) (stdout st) (stderr st)).

Definition Handler_setLevel (h : Handler) (lvl : Z) : Handler :=
  mkHandler (handler_id h) (handler_stream h) lvl (handler_formatter h).

Definition Handler_setFormatter (h : Handler) (f : Formatter) : Handler :=
  mkHandler (handler_id h) (handler_stream h) (handler_level h) (Some f).

(** [logging.getLogger(name)]: the registered logger, created on first
    use.  The registry is flat: the model covers the states in which no
    registered name is a dotted descendant of [name] (for a descendant the
    standard library also changes its parent when [name] is created). *)
Definition getLogger (name : string) (st : Store) : string * Store :=
  match loggerDict st !! name with
  | Some _ => (name, st)
  | None => (name, set_loggers st (<[name := mkLogger true NOTSET []]> (loggerDict st)))
  end.

Definition update (name : string) (f : Logger → Logger) (st : Store) : Store :=
  set_loggers st (alter f name (loggerDict st)).

(** [logger.propagate = b] *)
Definition set_propagate (name : string) (b : bool) : Store → Store :=
  update name (fun l => mkLogger b (level l) (handlers l)).

(** [logger.setLevel(lvl)] *)
Definition setLevel (name : string) (lvl : Z) : Store → Store :=
  update name (fun l => mkLogger (propagate l) lvl (handlers l)).

(** [logger.hasHandlers()]: the logger's own handlers, then its
    ancestors' as long as propagation is on. *)
Definition hasHandlers (name : string) (st : Store) : bool :=
  match loggerDict st !! name with
  | None => false
  | Some l =>
      match handlers l with
      | _ :: _ => true
      | [] =>
          if propagate l
          then match handlers (root st) with _ :: _ => true | [] => false end
          else false
      end
  end.

(** [logger.addHandler(h)]: appended unless the same object is there. *)
Definition addHandler (name : string) (h : Handler) : Store → Store :=
  update name (fun l =>
    if existsb (fun h' => Nat.eqb (handler_id h') (handler_id h)) (handlers l)
    then l
    else mkLogger (propagate l) (level l) (handlers l ++ [h])).

(** [Formatter.format(record)] for a format made of [%(message)s] fields
    and literal text. *)
Definition format (f : option Formatter) (message : string) : string :=
  match f with
  | Some f => PyStr.replace (fmt f) "%(message)s" message
  | None => message
  end.

(** [StreamHandler.emit(record)]: write the formatted record and the line
    terminator, then flush. *)
Definition emit (h : Handler) (message : string) (st : Store) : Store :=
  flush (handler_stream h)
    (write (handler_stream h) (format (handler_formatter h) message +:+ PyStr.nl) st).

Definition handle_all (hs : list Handler) (levelno : Z) (message : string) (st : Store)
  : Store :=
  fold_left (fun st h => if handler_level h <=? levelno then emit h message st else st) hs st.

(** [Logger.callHandlers(record)] *)
Definition callHandlers (l : Logger) (levelno : Z) (message : string) (st : Store)
  : Store :=
  let st1 := handle_all (handlers l) levelno message st in
  let found := length (handlers l) in
  let '(st2, found) :=
    if propagate l
    then (handle_all (handlers (root st)) levelno message st1,
          (found + length (handlers (root st)))%nat)
    else (st1, found) in
  match found with
  | O => if WARNING <=? levelno
         then flush Stderr (write Stderr (message +:+ PyStr.nl) st2)
         else st2
  | S _ => st2
  end.

(** [Logger.getEffectiveLevel()] *)
Definition getEffectiveLevel (l : Logger) (st : Store) : Z :=
  if negb (level l =? NOTSET) then level l
  else if negb (level (root st) =? NOTSET) then level (root st)
  else NOTSET.

(** [Logger.isEnabledFor(level)], with [logging.disable] left at its
    default. *)
Definition isEnabledFor (l : Logger) (lvl : Z) (st : Store) : bool :=
  if lvl <=? 0 then false else getEffectiveLevel l st <=? lvl.

(** [logger.log(level, msg)] *)
Definition log (name : string) (lvl : Z) (msg : string) (st : Store) : Store :=
  match loggerDict st !! name with
  | None => st
  | Some l => if isEnabledFor l lvl st then callHandlers l lvl msg st else st
  end.

End Logging.

(** ** What a call reads from the running process *)

(** The class of the object a frame binds to [self]. *)
Inductive PyClass : Type :=
| GumoLoggerClass
| OtherClass (name : string).

(** An entry of [inspect.stack()]: the [self] binding of the frame's locals
    when it has one, and the position the frame is executing. *)
Record FrameInfo : Type := mkFrameInfo {
  f_locals_self : option PyClass;
  filename : string;
  lineno : Z;
  function : string;
}.

(** The exception being handled, as [traceback.format_exc()] prints it. *)
Record ActiveException : Type := mkActiveException {
  traceback_text : string;
}.

Record World : Type := mkWorld {
  environ : gmap string string;          (* os.environ *)
  getcwd : string;                       (* os.getcwd() *)
  utcnow_isoformat : string;             (* datetime.datetime.utcnow().isoformat() *)
  now_str : string;                      (* str(datetime.datetime.now()) *)
  stack : list FrameInfo;                (* inspect.stack(), innermost frame first *)
  exc_info : option ActiveException;     (* sys.exc_info() *)
}.

(** [traceback.format_exc()]: with no exception being handled the standard
    library prints the type and value of [None]. *)
Definition format_exc (w : World) : string :=
  match exc_info w with
  | Some e => traceback_text e
  | None => "NoneType: None" +:+ PyStr.nl
  end.

(** A message argument, as far as the module observes it: whether it is a
    [BaseException], its [repr] and its [str]. *)
Record PyObject : Type := mkPyObject {
  is_BaseException : bool;
  py_repr : string;
  py_str : string;
}.

(** * [class GumoLogger] *)

Module GumoLogger.

Definition DEBUG : Z := Logging.DEBUG.
Definition INFO : Z := Logging.INFO.
Definition WARNING : Z := Logging.WARNING.
Definition ERROR : Z := Logging.ERROR.
Definition FATAL : Z := Logging.FATAL.
Definition CRITICAL : Z := Logging.CRITICAL.

Definition trace_key : string := "logging.googleapis.com/trace".
Definition spanId_key : string := "logging.googleapis.com/spanId".
Definition sourceLocation_key : string := "logging.googleapis.com/sourceLocation".

Record t : Type := mk {
  _project_id : string;
  _default_logger : string;
  _error_logger : string;
  _logger_context : LoggerContext;
  _structured_log_enabled : bool;
  _fetch_logger_context_func : option (World → option LoggerContext);
  _cwd : string;
}.

Definition __init__ (w : World) (project_id default_logger error_logger : string)
    (logger_context : LoggerContext) (structured_log_enabled : bool)
    (fetch_logger_context_func : option (World → option LoggerContext)) : t :=
  mk project_id default_logger error_logger logger_context structured_log_enabled
     fetch_logger_context_func (getcwd w +:+ "/").

Definition getLevelName (level : Z) : string := Logging.getLevelName level.

Definition _build_message_text (w : World) (msg : PyObject) : string :=
  if is_BaseException msg
  then PyStr.join PyStr.nl [py_repr msg; format_exc w]
  else py_str msg.

(** The loop of [_find_caller]: [callee_is_custom_logger] is the flag the
    loop carries, the result is [caller_stack]. *)
Definition stack_in_custom_logger (frame : FrameInfo) : bool :=
  match f_locals_self frame with
  | Some GumoLoggerClass => true
  | Some (OtherClass _) => false
  | None => false
  end.

Fixpoint _find_caller_loop (frames : list FrameInfo) (callee_is_custom_logger : bool)
  : option FrameInfo :=
  match frames with
  | [] => None
  | frame :: frames' =>
      if stack_in_custom_logger frame
      then _find_caller_loop frames' true
      else if callee_is_custom_logger
           then Some frame
           else _find_caller_loop frames' callee_is_custom_logger
  end.

Definition location (caller_stack : FrameInfo) : dict :=
  [("file", VStr (filename caller_stack));
   ("line", VInt (lineno caller_stack));
   ("function", VStr (function caller_stack))].

Definition _find_caller (w : World) : option dict :=
  match _find_caller_loop (stack w) false with
  | None => None
  | Some caller_stack => Some (location caller_stack)
  end.

Definition _build_log_payload (self : t) (w : World) (level : Z) (msg : PyObject) : dict :=
  let j := [("timestamp", VStr (utcnow_isoformat w +:+ "Z"));
            ("Message", VStr (_build_message_text w msg));
            ("severity", VStr (getLevelName level))] in
  let j := match trace (_logger_context self) with
           | Some x => dict_set j trace_key (VStr x)
           | None => j
           end in
  let j := match span_id (_logger_context self) with
           | Some x => dict_set j spanId_key (VStr x)
           | None => j
           end in
  let caller := _find_caller w in
  let j := match caller with
           | Some c => dict_set j sourceLocation_key (VDict c)
           | None => j
           end in
  j.

Definition _json_formatter (d : dict) : string := Json.dumps (VDict d).

Definition _log_text_formatter (self : t) (w : World) (d : dict) : result string :=
  let location := match dict_get d sourceLocation_key with
                  | Some v => v
                  | None => VDict []
                  end in
  line ← val_get location "line" (VStr "-");
  file ← val_get location "file" (VStr "<unknown>");
  file ← val_replace file (_cwd self) "";
  severity ← val_format (dict_get d "severity");
  line ← val_format (Some line);
  message ← val_format (dict_get d "Message");
  Ok ("[" +:+ now_str w +:+ "]" +:+ severity +:+ ":" +:+ file +:+ ":" +:+ line
      +:+ ": " +:+ message).

Definition _formatter (self : t) (w : World) (d : dict) : result string :=
  if _structured_log_enabled self
  then Ok (_json_formatter d)
  else _log_text_formatter self w d.

Definition set_logger_context (self : t) (context : LoggerContext) : t :=
  mk (_project_id self) (_default_logger self) (_error_logger self) context
     (_structured_log_enabled self) (_fetch_logger_context_func self) (_cwd self).

Definition _fetch_logger_context (self : t) (w : World) : t :=
  match _fetch_logger_context_func self with
  | None => self
  | Some f =>
      match f w with
      | None => self
      | Some context => set_logger_context self context
      end
  end.

(** [_log] returns the logger, whose context the hook may have replaced,
    and the state of the [logging] package after the write. *)
Definition _log (self : t) (w : World) (level : Z) (msg : PyObject) (st : Logging.Store)
  : result (t * Logging.Store) :=
  let self := _fetch_logger_context self w in
  let payload := _build_log_payload self w level msg in
  if ERROR <=? level
  then line ← _formatter self w payload;
       Ok (self, Logging.log (_error_logger self) level line st)
  else line ← _formatter self w payload;
       Ok (self, Logging.log (_default_logger self) level line st).

Definition debug (self : t) w msg st := _log self w DEBUG msg st.
Definition info (self : t) w msg st := _log self w INFO msg st.
Definition warning (self : t) w msg st := _log self w WARNING msg st.
Definition error (self : t) w msg st := _log self w ERROR msg st.
Definition exception (self : t) w msg st := error self w msg st.
Definition critical (self : t) w msg st := _log self w CRITICAL msg st.
Definition fatal (self : t) w msg st := _log self w FATAL msg st.
Definition log (self : t) w level msg st := _log self w level msg st.

End GumoLogger.

(** * [class LoggerManager] *)

Module LoggerManager.

Definition DEBUG : Z := Logging.DEBUG.

Record t : Type := mk {
  _project_id : string;
  _fetch_logger_context_func : option (World → option LoggerContext);
  _structured_log_enabled : bool;
  _default_logger : string;
  _default_handler : Logging.Handler;
  _error_logger : string;
  _error_handler : Logging.Handler;
}.

Definition _build_logger (logger_name : string) (stream : Logging.Stream) (level : Z)
    (st : Logging.Store) : (string * Logging.Handler) * Logging.Store :=
  let formatter := Logging.mkFormatter "%(message)s" in
  let '(handler, st) := Logging.StreamHandler stream st in
  let handler := Logging.Handler_setLevel handler level in
  let handler := Logging.Handler_setFormatter handler formatter in
  let '(logger, st) := Logging.getLogger logger_name st in
  let st := Logging.set_propagate logger false st in
  let st := Logging.setLevel logger level st in
  let st := if negb (Logging.hasHandlers logger st)
            then Logging.addHandler logger handler st
            else st in
  ((logger, handler), st).

Definition __init__ (w : World)
    (fetch_logger_context_func : option (World → option LoggerContext))
    (st : Logging.Store) : t * Logging.Store :=
  let project_id := match environ w !! "GOOGLE_CLOUD_PROJECT" with
                    | Some v => v
                    | None => "<unknown-project>"
                    end in
  let is_google_platform := match environ w !! "GAE_DEPLOYMENT_ID" with
                            | Some _ => true
                            | None => false
                            end in
  let '((default_logger, default_handler), st) :=
    _build_logger "default_logger" Logging.Stdout DEBUG st in
  let '((error_logger, error_handler), st) :=
    _build_logger "default_logger" Logging.Stderr DEBUG st in
  (mk project_id fetch_logger_context_func is_google_platform
      default_logger default_handler error_logger error_handler, st).

Definition flush (self : t) (st : Logging.Store) : Logging.Store :=
  Logging.flush (Logging.handler_stream (_error_handler self))
    (Logging.flush (Logging.handler_stream (_default_handler self)) st).

Definition _build_trace_and_span (self : t) (trace_header : option string)
  : result (option string * option string) :=
  match trace_header with
  | None => Ok (None, None)
  | Some trace_header =>
      '(trace_id, span_id) ←
        (if 0 <=? PyStr.find trace_header "/"
         then
           parts ← PyStr.split trace_header "/";
           '(trace_id, span_id) ← unpack2 parts;
           span_id ←
             (if 0 <=? PyStr.find span_id ";"
              then pieces ← PyStr.split span_id ";"; index pieces 0
              else Ok span_id);
           Ok (Some trace_id, Some span_id)
         else Ok (None, None));
      let trace :=
        "projects/" +:+ _project_id self +:+ "/traces/" +:+ PyStr.format_opt trace_id in
      Ok (Some trace, span_id)
  end.

Definition getLoggerContext (self : t) (trace_header : option string)
  : result LoggerContext :=
  '(trace, span_id) ← _build_trace_and_span self trace_header;
  Ok (mkLoggerContext trace span_id).

Definition getLogger (self : t) (w : World) (trace_header : option string)
  : result GumoLogger.t :=
  logger_context ← getLoggerContext self trace_header;
  Ok (GumoLogger.__init__ w (_project_id self) (_default_logger self)
        (_error_logger self) logger_context (_structured_log_enabled self)
        (_fetch_logger_context_func self)).

End LoggerManager.

(** * Specification-side definitions *)

(** The caller as the specification words it: walking outward, reach the
    run of internal frames, pass it, and take the frame that follows. *)
Fixpoint reach_internal_run (frames : list FrameInfo) : list FrameInfo :=
  match frames with
  | [] => []
  | frame :: frames' =>
      if GumoLogger.stack_in_custom_logger frame
      then frames
      else reach_internal_run frames'
  end.

Fixpoint first_external (frames : list FrameInfo) : option FrameInfo :=
  match frames with
  | [] => None
  | frame :: frames' =>
      if GumoLogger.stack_in_custom_logger frame
      then first_external frames'
      else Some frame
  end.

Definition caller_by_spec (frames : list FrameInfo) : option FrameInfo :=
  first_external (reach_internal_run frames).

(** The two sinks a [GumoLogger] holds. *)
Inductive Sink : Type := NormalSink | ErrorSink.

Definition sink_logger (self : GumoLogger.t) (s : Sink) : string :=
  match s with
  | NormalSink => GumoLogger._default_logger self
  | ErrorSink => GumoLogger._error_logger self
  end.

(** The six severities of the facade. *)
Definition severities : list Z :=
  [GumoLogger.DEBUG; GumoLogger.INFO; GumoLogger.WARNING;
   GumoLogger.ERROR; GumoLogger.CRITICAL; GumoLogger.FATAL].

(** Every character of [s] satisfies [p]. *)
Fixpoint all_chars (p : Ascii.ascii → bool) (s : string) : bool :=
  match s with
  | EmptyString => true
  | String c s' => p c && all_chars p s'
  end.

(** A character that is not a control character below 0x20. *)
Definition not_control (c : Ascii.ascii) : bool :=
  Nat.leb 32 (Ascii.nat_of_ascii c).

(** The keys of a payload, in the order [json.dumps] prints them. *)
Definition keys (d : dict) : list string := map fst d.

(** The part of the [logging] state a write must not touch: the registered
    loggers, the root logger and the handler counter. *)
Definition registry (st : Logging.Store)
  : gmap string Logging.Logger * Logging.Logger * nat :=
  (Logging.loggerDict st, Logging.root st, Logging.next_handler_id st).

(** [st'] is [st] after some writes: the registry is the same and each
    stream holds what it held, possibly followed by more. *)
Definition extends (st st' : Logging.Store) : Prop :=
  registry st' = registry st
  ∧ ∀ s, Logging.output st s `prefix_of` Logging.output st' s.

(** [sub in s] *)
Definition contains (s sub : string) : bool := 0 <=? PyStr.find s sub.

(** The text of the spanId field with an empty value in a structured line:
    the quoted key, a colon and a space, and two quotes. *)
Definition spanId_item : string :=
  Json.dquote +:+ "logging.googleapis.com/spanId" +:+ Json.dquote +:+ ": "
  +:+ Json.dquote +:+ Json.dquote.

(** * Theorems *)

(** ** Strings *)

Lemma str_app_nil_l (s : string) : "" +:+ s = s.
Proof. reflexivity. Qed.

Lemma str_app_cons (c : Ascii.ascii) (s t : string) :
  String c s +:+ t = String c (s +:+ t).
Proof. reflexivity. Qed.

Lemma str_app_nil_r (s : string) : s +:+ "" = s.
Proof. induction s as [|c s IH]; [reflexivity|]. rewrite str_app_cons, IH. reflexivity. Qed.

Lemma str_app_assoc (s t u : string) : (s +:+ t) +:+ u = s +:+ (t +:+ u).
Proof.
  induction s as [|c s IH]; [reflexivity|].
  rewrite !str_app_cons, IH. reflexivity.
Qed.

Section SingleCharacterSeparator.

Variable c : Ascii.ascii.

Local Abbreviation sep := (String c EmptyString).

Lemma startswith_sep (d : Ascii.ascii) (s : string) :
  PyStr.startswith (String d s) sep = Ascii.eqb c d.
Proof. simpl. destruct (Ascii.eqb c d); reflexivity. Qed.

Lemma has_char_app (a b : string) :
  PyStr.has_char c (a +:+ b) = PyStr.has_char c a || PyStr.has_char c b.
Proof.
  induction a as [|d a IH]; [reflexivity|].
  rewrite str_app_cons. simpl. destruct (Ascii.eqb c d); [reflexivity | exact IH].
Qed.

Lemma has_char_count (s : string) :
  PyStr.has_char c s = negb (Nat.eqb (PyStr.count_char c s) 0).
Proof.
  induction s as [|d s IH]; [reflexivity|].
  simpl. destruct (Ascii.eqb c d); [reflexivity | exact IH].
Qed.

Lemma find_from_sign (s : string) (i : Z) :
  0 <= i → (0 <=? PyStr.find_from s sep i) = PyStr.has_char c s.
Proof.
  revert i. induction s as [|d s IH]; intros i Hi.
  - reflexivity.
  - unfold PyStr.find_from; fold PyStr.find_from.
    rewrite startswith_sep. simpl.
    destruct (Ascii.eqb c d).
    + apply Z.leb_le. exact Hi.
    + apply IH. lia.
Qed.

Lemma find_sign (s : string) : (0 <=? PyStr.find s sep) = PyStr.has_char c s.
Proof. apply find_from_sign. lia. Qed.

Lemma split_scan_step (d : Ascii.ascii) (s cur : string) :
  PyStr.split_scan (String d s) sep O cur =
  if Ascii.eqb c d
  then cur :: PyStr.split_scan s sep O ""
  else PyStr.split_scan s sep O (cur +:+ String d "").
Proof.
  unfold PyStr.split_scan; fold PyStr.split_scan.
  rewrite startswith_sep. reflexivity.
Qed.

Lemma split_scan_length (s cur : string) :
  length (PyStr.split_scan s sep O cur) = S (PyStr.count_char c s).
Proof.
  revert cur. induction s as [|d s IH]; intros cur; [reflexivity|].
  rewrite split_scan_step. simpl.
  destruct (Ascii.eqb c d); simpl; rewrite IH; reflexivity.
Qed.

Lemma split_scan_no_sep (s cur : string) :
  PyStr.has_char c s = false → PyStr.split_scan s sep O cur = [cur +:+ s].
Proof.
  revert cur. induction s as [|d s IH]; intros cur H.
  - simpl. rewrite str_app_nil_r. reflexivity.
  - rewrite split_scan_step. simpl in H.
    destruct (Ascii.eqb c d); [discriminate|].
    rewrite IH by exact H. rewrite str_app_assoc. reflexivity.
Qed.

Lemma split_scan_first_sep (a r cur : string) :
  PyStr.has_char c a = false →
  PyStr.split_scan (a +:+ String c r) sep O cur =
  (cur +:+ a) :: PyStr.split_scan r sep O "".
Proof.
  revert cur. induction a as [|d a IH]; intros cur H.
  - rewrite str_app_nil_l, split_scan_step, Ascii.eqb_refl, str_app_nil_r. reflexivity.
  - rewrite str_app_cons, split_scan_step. simpl in H.
    destruct (Ascii.eqb c d); [discriminate|].
    rewrite IH by exact H. rewrite str_app_assoc. reflexivity.
Qed.

Lemma split_scan_nonempty (s cur : string) :
  ∃ x l, PyStr.split_scan s sep O cur = x :: l.
Proof.
  pose proof (split_scan_length s cur) as H.
  destruct (PyStr.split_scan s sep O cur) as [|x l]; [discriminate | eauto].
Qed.

End SingleCharacterSeparator.

(** ** Trace header parsing *)

Ltac unfold_result := unfold mbind, result_bind, mret, result_ret.

Lemma split_slash (s : string) :
  PyStr.split s "/" = Ok (PyStr.split_scan s "/" 0 "").
Proof. reflexivity. Qed.

Lemma split_semicolon (s : string) :
  PyStr.split s ";" = Ok (PyStr.split_scan s ";" 0 "").
Proof. reflexivity. Qed.

(** The step [if span_id.find(';') >= 0: span_id = span_id.split(';')[0]]
    never raises: a split has at least one piece. *)
Lemma truncate_options_ok (span_id : string) :
  ∃ s, (if 0 <=? PyStr.find span_id ";"
        then pieces ← PyStr.split span_id ";"; index pieces 0
        else Ok span_id) = Ok s.
Proof.
  destruct (0 <=? PyStr.find span_id ";"); [|eauto].
  rewrite split_semicolon. unfold_result.
  destruct (split_scan_nonempty PyStr.semicolon span_id "") as (x & l & H).
  exists x. change (String PyStr.semicolon "") with ";" in H. rewrite H. reflexivity.
Qed.

(** With nothing before the first [';'] (or nothing at all) the truncated
    span id is the empty string. *)
Lemma truncate_options_empty (rest : string) :
  rest = "" ∨ (∃ o, rest = ";" +:+ o) →
  (if 0 <=? PyStr.find rest ";"
   then pieces ← PyStr.split rest ";"; index pieces 0
   else Ok rest) = Ok "".
Proof.
  intros [-> | [o ->]]; reflexivity.
Qed.

(** A header with no ['/'] skips the split. *)
Lemma build_no_slash (m : LoggerManager.t) (h : string) :
  PyStr.has_char PyStr.slash h = false →
  LoggerManager._build_trace_and_span m (Some h) =
  Ok (Some ("projects/" +:+ LoggerManager._project_id m +:+ "/traces/" +:+ "None"), None).
Proof.
  intros H. unfold LoggerManager._build_trace_and_span.
  pose proof (find_sign PyStr.slash h) as Hf.
  change (String PyStr.slash "") with "/" in Hf.
  rewrite Hf, H. reflexivity.
Qed.

(** A header with exactly one ['/']: the pieces are what stands before and
    after it. *)
Lemma build_one_slash (m : LoggerManager.t) (tid rest : string) :
  PyStr.has_char PyStr.slash tid = false →
  PyStr.has_char PyStr.slash rest = false →
  LoggerManager._build_trace_and_span m (Some (tid +:+ "/" +:+ rest)) =
  (span_id ← (if 0 <=? PyStr.find rest ";"
              then pieces ← PyStr.split rest ";"; index pieces 0
              else Ok rest);
   Ok (Some ("projects/" +:+ LoggerManager._project_id m +:+ "/traces/" +:+ tid),
       Some span_id)).
Proof.
  intros Ht Hr. unfold LoggerManager._build_trace_and_span.
  pose proof (find_sign PyStr.slash (tid +:+ "/" +:+ rest)) as Hf.
  rewrite has_char_app, Ht in Hf.
  change ((0 <=? PyStr.find (tid +:+ "/" +:+ rest) "/") = true) in Hf.
  rewrite Hf, split_slash. unfold_result.
  pose proof (split_scan_first_sep PyStr.slash tid rest "" Ht) as Hs.
  rewrite (split_scan_no_sep PyStr.slash rest "" Hr) in Hs.
  change (String PyStr.slash "") with "/" in Hs.
  change (String PyStr.slash rest) with ("/" +:+ rest) in Hs.
  rewrite Hs. simpl unpack2. cbv iota beta. rewrite !str_app_nil_l.
  destruct (truncate_options_ok rest) as [s Hk].
  unfold mbind, result_bind in Hk. rewrite Hk. reflexivity.
Qed.

(** The call raises exactly when the header has a second ['/']. *)
Lemma build_raises (m : LoggerManager.t) (h : string) :
  raises (LoggerManager._build_trace_and_span m (Some h)) =
  Nat.leb 2 (PyStr.count_char PyStr.slash h).
Proof.
  unfold LoggerManager._build_trace_and_span.
  pose proof (find_sign PyStr.slash h) as Hf.
  rewrite has_char_count in Hf.
  change (String PyStr.slash "") with "/" in Hf. rewrite Hf. clear Hf.
  rewrite split_slash. unfold_result.
  pose proof (split_scan_length PyStr.slash h "") as Hlen.
  change (String PyStr.slash "") with "/" in Hlen.
  destruct (PyStr.split_scan h "/" 0 "") as [|a [|b [|x l]]];
    simpl in Hlen; try discriminate.
  - injection Hlen as <-. reflexivity.
  - injection Hlen as <-.
    destruct (truncate_options_ok b) as [s Hs].
    unfold mbind, result_bind in Hs. simpl unpack2. cbv iota beta.
    rewrite Hs. reflexivity.
  - injection Hlen as <-. reflexivity.
Qed.

(** C1: for a header with no ['/'] the code does not return a null trace.
    The f-string is formatted outside the [if], with [trace_id] still
    [None], so the context carries the text [projects/<project>/traces/None];
    only [span_id] is null. *)
Theorem getLoggerContext_no_slash (m : LoggerManager.t) (h : string) :
  PyStr.has_char PyStr.slash h = false →
  ∃ ctx, LoggerManager.getLoggerContext m (Some h) = Ok ctx
         ∧ trace ctx = Some ("projects/" +:+ LoggerManager._project_id m +:+ "/traces/None")
         ∧ trace ctx ≠ None
         ∧ span_id ctx = None.
Proof.
  intros H. unfold LoggerManager.getLoggerContext.
  rewrite (build_no_slash m h H). unfold_result.
  eexists. split; [reflexivity|]. simpl. done.
Qed.

Lemma getLoggerContext_no_slash_abc123 :
  ∃ ctx, LoggerManager.getLoggerContext
           (LoggerManager.mk "myproj" None false "default_logger"
              (Logging.mkHandler 0 Logging.Stdout 10 None) "default_logger"
              (Logging.mkHandler 1 Logging.Stderr 10 None))
           (Some "abc123") = Ok ctx
         ∧ trace ctx = Some "projects/myproj/traces/None"
         ∧ trace ctx ≠ None
         ∧ span_id ctx = None.
Proof.
  exact (getLoggerContext_no_slash
           (LoggerManager.mk "myproj" None false "default_logger"
              (Logging.mkHandler 0 Logging.Stdout 10 None) "default_logger"
              (Logging.mkHandler 1 Logging.Stderr 10 None))
           "abc123" eq_refl).
Defined.

(** C2: [getLoggerContext] does not complete for every header.
    [trace_header.split('/', )] has no [maxsplit], so it splits at every
    ['/'], and unpacking into two names raises [ValueError] exactly when the
    header has two or more ['/']: for instance on [a/b/c]. *)
Theorem getLoggerContext_raises_on_second_slash (m : LoggerManager.t) :
  (∀ h, raises (LoggerManager.getLoggerContext m (Some h)) =
        Nat.leb 2 (PyStr.count_char PyStr.slash h))
  ∧ LoggerManager.getLoggerContext m (Some "a/b/c") =
    Raise (ValueError "too many values to unpack (expected 2)").
Proof.
  split; [|reflexivity].
  intros h. rewrite <- (build_raises m h).
  unfold LoggerManager.getLoggerContext. unfold_result.
  destruct (LoggerManager._build_trace_and_span m (Some h)) as [[? ?]|]; reflexivity.
Qed.

(** C5: with project id [myproj], the header [abc123/456;o=1] yields the
    trace [projects/myproj/traces/abc123] and the span id [456]; a null
    header yields a null trace and a null span id. *)
Theorem getLoggerContext_examples (m : LoggerManager.t) :
  LoggerManager._project_id m = "myproj" →
  LoggerManager.getLoggerContext m (Some "abc123/456;o=1") =
    Ok (mkLoggerContext (Some "projects/myproj/traces/abc123") (Some "456"))
  ∧ LoggerManager.getLoggerContext m None = Ok (mkLoggerContext None None).
Proof.
  intros Hp. split; [|reflexivity].
  unfold LoggerManager.getLoggerContext, LoggerManager._build_trace_and_span.
  rewrite Hp. reflexivity.
Qed.

Lemma getLoggerContext_examples_witness :
  let m := fst (LoggerManager.__init__
                  (mkWorld (<["GOOGLE_CLOUD_PROJECT" := "myproj"]> ∅) "/srv/app"
                           "2020-01-01T00:00:00" "2020-01-01 09:00:00" [] None)
                  None Logging.initial) in
  LoggerManager.getLoggerContext m (Some "abc123/456;o=1") =
    Ok (mkLoggerContext (Some "projects/myproj/traces/abc123") (Some "456"))
  ∧ LoggerManager.getLoggerContext m None = Ok (mkLoggerContext None None).
Proof.
  intros m. apply (getLoggerContext_examples m). vm_compute. reflexivity.
Defined.

(** ** The payload *)

Lemma payload_get_trace (self : GumoLogger.t) (w : World) (level : Z) (msg : PyObject) :
  dict_get (GumoLogger._build_log_payload self w level msg) GumoLogger.trace_key =
  VStr <$> trace (GumoLogger._logger_context self).
Proof.
  unfold GumoLogger._build_log_payload.
  destruct (trace _), (span_id _), (GumoLogger._find_caller w); reflexivity.
Qed.

Lemma payload_get_spanId (self : GumoLogger.t) (w : World) (level : Z) (msg : PyObject) :
  dict_get (GumoLogger._build_log_payload self w level msg) GumoLogger.spanId_key =
  VStr <$> span_id (GumoLogger._logger_context self).
Proof.
  unfold GumoLogger._build_log_payload.
  destruct (trace _), (span_id _), (GumoLogger._find_caller w); reflexivity.
Qed.

Lemma payload_get_sourceLocation (self : GumoLogger.t) (w : World) (level : Z)
    (msg : PyObject) :
  dict_get (GumoLogger._build_log_payload self w level msg) GumoLogger.sourceLocation_key =
  VDict <$> GumoLogger._find_caller w.
Proof.
  unfold GumoLogger._build_log_payload.
  destruct (trace _), (span_id _), (GumoLogger._find_caller w); reflexivity.
Qed.

Lemma payload_get_fixed (self : GumoLogger.t) (w : World) (level : Z) (msg : PyObject) :
  let j := GumoLogger._build_log_payload self w level msg in
  dict_get j "timestamp" = Some (VStr (utcnow_isoformat w +:+ "Z"))
  ∧ dict_get j "Message" = Some (VStr (GumoLogger._build_message_text w msg))
  ∧ dict_get j "severity" = Some (VStr (GumoLogger.getLevelName level)).
Proof.
  unfold GumoLogger._build_log_payload.
  destruct (trace _), (span_id _), (GumoLogger._find_caller w); repeat split; reflexivity.
Qed.

Lemma is_Some_fmap_iff {A B} (f : A → B) (o : option A) : is_Some (f <$> o) ↔ is_Some o.
Proof. apply fmap_is_Some. Qed.

(** C6: the record holds the trace key exactly when the bound context has
    a trace, the spanId key exactly when it has a span id, the
    sourceLocation key exactly when the caller was resolved (each with the
    value copied), and always the timestamp, Message and severity keys. *)
Theorem payload_keys (self : GumoLogger.t) (w : World) (level : Z) (msg : PyObject) :
  let j := GumoLogger._build_log_payload self w level msg in
  let context := GumoLogger._logger_context self in
  (dict_get j GumoLogger.trace_key = VStr <$> trace context
   ∧ (is_Some (dict_get j GumoLogger.trace_key) ↔ is_Some (trace context)))
  ∧ (dict_get j GumoLogger.spanId_key = VStr <$> span_id context
     ∧ (is_Some (dict_get j GumoLogger.spanId_key) ↔ is_Some (span_id context)))
  ∧ (dict_get j GumoLogger.sourceLocation_key = VDict <$> GumoLogger._find_caller w
     ∧ (is_Some (dict_get j GumoLogger.sourceLocation_key)
        ↔ is_Some (GumoLogger._find_caller w)))
  ∧ is_Some (dict_get j "timestamp")
  ∧ is_Some (dict_get j "Message")
  ∧ is_Some (dict_get j "severity").
Proof.
  intros j context. subst j context.
  rewrite payload_get_trace, payload_get_spanId, payload_get_sourceLocation.
  destruct (payload_get_fixed self w level msg) as (-> & -> & ->).
  rewrite !is_Some_fmap_iff. repeat split; eauto.
Qed.

(** ** Caller resolution *)

Lemma find_caller_loop_inside (frames : list FrameInfo) :
  GumoLogger._find_caller_loop frames true = first_external frames.
Proof.
  induction frames as [|frame frames IH]; [reflexivity|].
  simpl. destruct (GumoLogger.stack_in_custom_logger frame); [exact IH | reflexivity].
Qed.

Lemma find_caller_loop_spec (frames : list FrameInfo) :
  GumoLogger._find_caller_loop frames false = caller_by_spec frames.
Proof.
  unfold caller_by_spec.
  induction frames as [|frame frames IH]; [reflexivity|].
  simpl. destruct (GumoLogger.stack_in_custom_logger frame) eqn:E.
  - simpl. rewrite E. apply find_caller_loop_inside.
  - exact IH.
Qed.

Lemma first_external_all_internal (frames : list FrameInfo) :
  forallb GumoLogger.stack_in_custom_logger frames = true → first_external frames = None.
Proof.
  induction frames as [|frame frames IH]; [reflexivity|].
  simpl. destruct (GumoLogger.stack_in_custom_logger frame); [exact IH | discriminate].
Qed.

Lemma first_external_after_run (run rest : list FrameInfo) (frame : FrameInfo) :
  forallb GumoLogger.stack_in_custom_logger run = true →
  GumoLogger.stack_in_custom_logger frame = false →
  first_external (run ++ frame :: rest) = Some frame.
Proof.
  intros Hrun Hf. induction run as [|r run IH]; simpl.
  - rewrite Hf. reflexivity.
  - simpl in Hrun. destruct (GumoLogger.stack_in_custom_logger r); [auto | discriminate].
Qed.

Lemma caller_by_spec_decompose (pre run rest : list FrameInfo) (frame : FrameInfo) :
  forallb (fun f => negb (GumoLogger.stack_in_custom_logger f)) pre = true →
  run ≠ [] →
  forallb GumoLogger.stack_in_custom_logger run = true →
  GumoLogger.stack_in_custom_logger frame = false →
  caller_by_spec (pre ++ run ++ frame :: rest) = Some frame.
Proof.
  intros Hpre Hne Hrun Hf. unfold caller_by_spec.
  induction pre as [|p pre IH]; simpl.
  - destruct run as [|r run]; [congruence|].
    simpl in *. destruct (GumoLogger.stack_in_custom_logger r) eqn:E; [|discriminate].
    simpl. rewrite E. apply first_external_after_run; assumption.
  - simpl in Hpre. destruct (GumoLogger.stack_in_custom_logger p); [discriminate | auto].
Qed.

Lemma caller_by_spec_all_internal (frames : list FrameInfo) :
  forallb GumoLogger.stack_in_custom_logger frames = true → caller_by_spec frames = None.
Proof.
  intros H. unfold caller_by_spec. destruct frames as [|frame frames]; [reflexivity|].
  simpl in *. destruct (GumoLogger.stack_in_custom_logger frame) eqn:E; [|discriminate].
  simpl. rewrite E. apply first_external_all_internal. exact H.
Qed.

(** C7: [_find_caller] walks [inspect.stack()] from the innermost frame; a
    frame is internal when its [self] is a [GumoLogger].  The result is the
    frame the specification describes ([caller_by_spec]): the first
    non-internal frame that follows a run of internal frames, returned as
    file, line and function.  When every frame is internal there is no
    location and the payload has no sourceLocation key. *)
Theorem find_caller_resolves_first_external_frame (w : World) :
  GumoLogger._find_caller w = GumoLogger.location <$> caller_by_spec (stack w)
  ∧ (∀ (pre run rest : list FrameInfo) (frame : FrameInfo),
       stack w = (pre ++ run ++ frame :: rest)%list →
       forallb (fun f => negb (GumoLogger.stack_in_custom_logger f)) pre = true →
       run ≠ [] →
       forallb GumoLogger.stack_in_custom_logger run = true →
       GumoLogger.stack_in_custom_logger frame = false →
       GumoLogger._find_caller w =
         Some [("file", VStr (filename frame)); ("line", VInt (lineno frame));
               ("function", VStr (function frame))])
  ∧ (forallb GumoLogger.stack_in_custom_logger (stack w) = true →
     GumoLogger._find_caller w = None
     ∧ ∀ self level msg,
         dict_get (GumoLogger._build_log_payload self w level msg)
                  GumoLogger.sourceLocation_key = None).
Proof.
  assert (Hspec : GumoLogger._find_caller w
                  = GumoLogger.location <$> caller_by_spec (stack w)).
  { unfold GumoLogger._find_caller. rewrite find_caller_loop_spec.
    destruct (caller_by_spec (stack w)); reflexivity. }
  split; [exact Hspec|]. split.
  - intros pre run rest frame Hs Hpre Hne Hrun Hf. rewrite Hspec, Hs.
    rewrite (caller_by_spec_decompose pre run rest frame) by assumption.
    reflexivity.
  - intros Hall.
    assert (Hnone : GumoLogger._find_caller w = None).
    { rewrite Hspec, caller_by_spec_all_internal by assumption. reflexivity. }
    split; [exact Hnone|].
    intros self level msg. rewrite payload_get_sourceLocation, Hnone. reflexivity.
Qed.

Lemma find_caller_resolves_first_external_frame_witness :
  let internal := mkFrameInfo (Some GumoLoggerClass) "/srv/app/gumo/logging/__init__.py" in
  let frame := mkFrameInfo (Some (OtherClass "ErrorViews")) "/srv/app/main.py" 54 "get" in
  let run := [internal 149 "_find_caller"; internal 73 "_build_log_payload";
              internal 115 "_log"; internal 128 "warning"] in
  let rest := [mkFrameInfo None "/srv/app/flask/app.py" 1799 "dispatch_request"] in
  let w := mkWorld ∅ "/srv/app" "2020-01-01T00:00:00" "2020-01-01 09:00:00"
                   (run ++ frame :: rest)%list None in
  let inside := mkWorld ∅ "/srv/app" "2020-01-01T00:00:00" "2020-01-01 09:00:00"
                        run None in
  GumoLogger._find_caller w =
    Some [("file", VStr "/srv/app/main.py"); ("line", VInt 54); ("function", VStr "get")]
  ∧ GumoLogger._find_caller inside = None.
Proof.
  intros internal frame run rest w inside. split.
  - refine (proj1 (proj2 (find_caller_resolves_first_external_frame w))
              [] run rest frame eq_refl eq_refl _ eq_refl eq_refl).
    discriminate.
  - exact (proj1 (proj2 (proj2 (find_caller_resolves_first_external_frame inside))
                    eq_refl)).
Defined.

(** ** Message text *)

(** C9 as stated fails: an error object logged while no exception is being
    handled is not followed by the empty string. *)
Lemma build_message_text_without_active_exception :
  let w := mkWorld ∅ "/srv/app" "2020-01-01T00:00:00" "2020-01-01 09:00:00" [] None in
  let err := mkPyObject true "ZeroDivisionError('division by zero')" "division by zero" in
  is_BaseException err = true
  ∧ exc_info w = None
  ∧ GumoLogger._build_message_text w err ≠ py_repr err +:+ PyStr.nl +:+ "".
Proof.
  repeat split. vm_compute. discriminate.
Qed.

(** C9, amended: for an error object the text is its [repr], a newline,
    and what [traceback.format_exc()] returns: the trace of the exception
    being handled, or the line [NoneType: None] when there is none.  For any
    other value the text is its [str]. *)
Theorem build_message_text_spec (w : World) (msg : PyObject) :
  GumoLogger._build_message_text w msg =
  if is_BaseException msg
  then py_repr msg +:+ PyStr.nl +:+
       match exc_info w with
       | Some e => traceback_text e
       | None => "NoneType: None" +:+ PyStr.nl
       end
  else py_str msg.
Proof.
  unfold GumoLogger._build_message_text, format_exc, PyStr.join.
  destruct (is_BaseException msg); reflexivity.
Qed.

(** ** Formatting *)

(** The text line of a payload built by [_build_log_payload]. *)
Lemma text_formatter_payload (self : GumoLogger.t) (w : World) (level : Z)
    (msg : PyObject) :
  GumoLogger._log_text_formatter self w (GumoLogger._build_log_payload self w level msg) =
  Ok ("[" +:+ now_str w +:+ "]" +:+ GumoLogger.getLevelName level +:+ ":" +:+
      PyStr.replace
        match GumoLogger._find_caller_loop (stack w) false with
        | Some caller_stack => filename caller_stack
        | None => "<unknown>"
        end (GumoLogger._cwd self) "" +:+ ":" +:+
      match GumoLogger._find_caller_loop (stack w) false with
      | Some caller_stack => PyStr.of_int (lineno caller_stack)
      | None => "-"
      end +:+ ": " +:+ GumoLogger._build_message_text w msg).
Proof.
  unfold GumoLogger._log_text_formatter, GumoLogger._build_log_payload,
    GumoLogger._find_caller.
  destruct (trace _), (span_id _), (GumoLogger._find_caller_loop (stack w) false);
    reflexivity.
Qed.

(** Formatting a payload built by [_build_log_payload] never raises. *)
Lemma formatter_payload_ok (self : GumoLogger.t) (w : World) (level : Z) (msg : PyObject) :
  ∃ line,
    GumoLogger._formatter self w (GumoLogger._build_log_payload self w level msg) = Ok line.
Proof.
  unfold GumoLogger._formatter. destruct (GumoLogger._structured_log_enabled self).
  - eauto.
  - rewrite text_formatter_payload. eauto.
Qed.

(** C8: the file of a text line is not the source path with the working
    directory stripped as a prefix.  [file.replace(self._cwd, '')] removes
    every occurrence of the directory text, so with the working directory
    [/a] the path [/a/b/a/c.py] is printed as [bc.py], not as [b/a/c.py]. *)
Theorem text_formatter_removes_every_occurrence :
  let internal := mkFrameInfo (Some GumoLoggerClass) "/a/gumo/logging/__init__.py" in
  let w := mkWorld ∅ "/a" "2020-01-01T00:00:00" "2020-01-01 09:00:00"
             [internal 149 "_find_caller"; internal 73 "_build_log_payload";
              internal 115 "_log"; internal 125 "info";
              mkFrameInfo None "/a/b/a/c.py" 12 "root"] None in
  let self := GumoLogger.__init__ w "myproj" "default_logger" "error_logger"
                (mkLoggerContext None None) false None in
  let hi := mkPyObject false "'hi'" "hi" in
  GumoLogger._formatter self w (GumoLogger._build_log_payload self w GumoLogger.INFO hi)
  = Ok "[2020-01-01 09:00:00]INFO:bc.py:12: hi"
  ∧ GumoLogger._formatter self w (GumoLogger._build_log_payload self w GumoLogger.INFO hi)
    ≠ Ok "[2020-01-01 09:00:00]INFO:b/a/c.py:12: hi".
Proof.
  split; vm_compute; [reflexivity | discriminate].
Qed.

(** Without a resolved caller the line shows the two fall-backs. *)
Example text_formatter_fallbacks :
  let w := mkWorld ∅ "/srv/app" "2020-01-01T00:00:00" "2020-01-01 09:00:00" [] None in
  let self := GumoLogger.__init__ w "myproj" "default_logger" "error_logger"
                (mkLoggerContext None None) false None in
  GumoLogger._formatter self w
    (GumoLogger._build_log_payload self w GumoLogger.WARNING (mkPyObject false "'hi'" "hi"))
  = Ok "[2020-01-01 09:00:00]WARNING:<unknown>:-: hi".
Proof. reflexivity. Qed.

(** The structured line of a record with a span id and a source location. *)
Example json_formatter_example :
  let q := Json.dquote in
  GumoLogger._json_formatter
    [("severity", VStr "INFO"); (GumoLogger.spanId_key, VStr "");
     (GumoLogger.sourceLocation_key, VDict [("line", VInt 12)])]
  = "{" +:+ q +:+ "severity" +:+ q +:+ ": " +:+ q +:+ "INFO" +:+ q +:+ ", "
    +:+ q +:+ "logging.googleapis.com/spanId" +:+ q +:+ ": " +:+ q +:+ q +:+ ", "
    +:+ q +:+ "logging.googleapis.com/sourceLocation" +:+ q +:+ ": {"
    +:+ q +:+ "line" +:+ q +:+ ": 12}}".
Proof. reflexivity. Qed.

(** ** Routing *)

Lemma output_emit_same (h : Logging.Handler) (message : string) (st : Logging.Store) :
  Logging.output (Logging.emit h message st) (Logging.handler_stream h) =
  (Logging.output st (Logging.handler_stream h) ++
   [Logging.format (Logging.handler_formatter h) message +:+ PyStr.nl])%list.
Proof.
  unfold Logging.emit, Logging.output, Logging.flush, Logging.write.
  destruct (Logging.handler_stream h); simpl; rewrite app_nil_r, app_assoc; reflexivity.
Qed.

Lemma severities_enabled (level : Z) :
  In level severities → (level <=? 0) = false ∧ (Logging.DEBUG <=? level) = true.
Proof.
  unfold severities. simpl.
  intros [<- | [<- | [<- | [<- | [<- | [<- | []]]]]]]; split; reflexivity.
Qed.

Lemma output_emit_other (h : Logging.Handler) (message : string) (st : Logging.Store)
    (s : Logging.Stream) :
  s ≠ Logging.handler_stream h →
  Logging.output (Logging.emit h message st) s = Logging.output st s.
Proof.
  unfold Logging.emit, Logging.output, Logging.flush, Logging.write.
  destruct (Logging.handler_stream h), s; simpl; congruence.
Qed.

(** A logger at [DEBUG] that does not propagate and has one handler at
    [DEBUG] hands every record of the six severities to that handler. *)
Lemma log_single_handler (name : string) (h : Logging.Handler) (level : Z) (line : string)
    (st : Logging.Store) :
  In level severities →
  Logging.loggerDict st !! name = Some (Logging.mkLogger false Logging.DEBUG [h]) →
  Logging.handler_level h = Logging.DEBUG →
  Logging.log name level line st = Logging.emit h line st.
Proof.
  intros Hlevel Hlogger Hh. destruct (severities_enabled level Hlevel) as [Hpos Hdebug].
  unfold Logging.log. rewrite Hlogger.
  unfold Logging.isEnabledFor, Logging.getEffectiveLevel. rewrite Hpos. simpl.
  rewrite Hdebug. unfold Logging.callHandlers, Logging.handle_all. simpl.
  rewrite Hh, Hdebug. reflexivity.
Qed.

Lemma log_writes (name : string) (h : Logging.Handler) (level : Z) (line : string)
    (st : Logging.Store) :
  In level severities →
  Logging.loggerDict st !! name = Some (Logging.mkLogger false Logging.DEBUG [h]) →
  Logging.handler_level h = Logging.DEBUG →
  Logging.output (Logging.log name level line st) (Logging.handler_stream h) =
  (Logging.output st (Logging.handler_stream h) ++
   [Logging.format (Logging.handler_formatter h) line +:+ PyStr.nl])%list.
Proof.
  intros Hlevel Hlogger Hh.
  rewrite (log_single_handler name h level line st Hlevel Hlogger Hh).
  apply output_emit_same.
Qed.

(** The format [%(message)s] prints the message and nothing else. *)
Lemma format_message_only (message : string) :
  Logging.format (Some (Logging.mkFormatter "%(message)s")) message = message.
Proof. unfold Logging.format. simpl. apply str_app_nil_r. Qed.

(** C4: a log call on a [GumoLogger] formats the record and hands the line
    to the error sink exactly when the level is at least [ERROR], and to the
    normal sink otherwise; for the six severities a sink set up as the
    manager sets loggers up (level [DEBUG], no propagation, one handler at
    [DEBUG]) writes that line to its stream. *)
Theorem log_routes_by_severity (self : GumoLogger.t) (w : World) (level : Z)
    (msg : PyObject) (st : Logging.Store) :
  In level severities →
  ∃ (sink : Sink) (line : string) (st' : Logging.Store),
    let self' := GumoLogger._fetch_logger_context self w in
    GumoLogger.log self w level msg st = Ok (self', st')
    ∧ GumoLogger._formatter self' w (GumoLogger._build_log_payload self' w level msg)
      = Ok line
    ∧ (sink = ErrorSink ↔ GumoLogger.ERROR <= level)
    ∧ (sink = NormalSink ↔ level < GumoLogger.ERROR)
    ∧ st' = Logging.log (sink_logger self' sink) level line st
    ∧ ∀ h : Logging.Handler,
        Logging.loggerDict st !! sink_logger self' sink
          = Some (Logging.mkLogger false Logging.DEBUG [h]) →
        Logging.handler_level h = Logging.DEBUG →
        Logging.output st' (Logging.handler_stream h) =
        (Logging.output st (Logging.handler_stream h) ++
         [Logging.format (Logging.handler_formatter h) line +:+ PyStr.nl])%list.
Proof.
  intros Hlevel.
  destruct (formatter_payload_ok (GumoLogger._fetch_logger_context self w) w level msg)
    as [line Hline].
  exists (if GumoLogger.ERROR <=? level then ErrorSink else NormalSink), line.
  exists (Logging.log
            (sink_logger (GumoLogger._fetch_logger_context self w)
               (if GumoLogger.ERROR <=? level then ErrorSink else NormalSink))
            level line st).
  cbv zeta.
  unfold GumoLogger.log, GumoLogger._log. rewrite Hline. unfold_result.
  destruct (Z.leb_spec GumoLogger.ERROR level) as [Hge | Hlt].
  - split; [reflexivity|]. split; [reflexivity|].
    split; [split; [intros _; exact Hge | reflexivity]|].
    split; [split; [discriminate | lia]|].
    split; [reflexivity|].
    intros h Hlogger Hh. apply log_writes; assumption.
  - split; [reflexivity|]. split; [reflexivity|].
    split; [split; [discriminate | lia]|].
    split; [split; [intros _; exact Hlt | reflexivity]|].
    split; [reflexivity|].
    intros h Hlogger Hh. apply log_writes; assumption.
Qed.

Lemma log_routes_by_severity_witness :
  let w := mkWorld ∅ "/srv/app" "2020-01-01T00:00:00" "2020-01-01 09:00:00"
             [mkFrameInfo (Some GumoLoggerClass) "/srv/app/gumo/logging/__init__.py"
                          149 "_find_caller";
              mkFrameInfo None "/srv/app/main.py" 35 "root"] None in
  let st := snd (LoggerManager._build_logger "error_logger" Logging.Stderr Logging.DEBUG
                   (snd (LoggerManager._build_logger "default_logger" Logging.Stdout
                           Logging.DEBUG Logging.initial))) in
  let self := GumoLogger.__init__ w "myproj" "default_logger" "error_logger"
                (mkLoggerContext None None) false None in
  let msg := mkPyObject false "'boom'" "boom" in
  ∃ (sink : Sink) (line : string) (st' : Logging.Store),
    let self' := GumoLogger._fetch_logger_context self w in
    GumoLogger.log self w GumoLogger.ERROR msg st = Ok (self', st')
    ∧ GumoLogger._formatter self' w
        (GumoLogger._build_log_payload self' w GumoLogger.ERROR msg) = Ok line
    ∧ (sink = ErrorSink ↔ GumoLogger.ERROR <= GumoLogger.ERROR)
    ∧ (sink = NormalSink ↔ GumoLogger.ERROR < GumoLogger.ERROR)
    ∧ st' = Logging.log (sink_logger self' sink) GumoLogger.ERROR line st
    ∧ ∀ h : Logging.Handler,
        Logging.loggerDict st !! sink_logger self' sink
          = Some (Logging.mkLogger false Logging.DEBUG [h]) →
        Logging.handler_level h = Logging.DEBUG →
        Logging.output st' (Logging.handler_stream h) =
        (Logging.output st (Logging.handler_stream h) ++
         [Logging.format (Logging.handler_formatter h) line +:+ PyStr.nl])%list.
Proof.
  intros w st self msg.
  apply (log_routes_by_severity self w GumoLogger.ERROR msg st).
  unfold severities. simpl. tauto.
Defined.

(** With two sinks registered under different names, an [ERROR] record
    reaches the standard error stream and an [INFO] record the standard
    output stream. *)
Example distinct_sinks_route_to_both_streams :
  let w := mkWorld ∅ "/srv/app" "2020-01-01T00:00:00" "2020-01-01 09:00:00"
             [mkFrameInfo (Some GumoLoggerClass) "/srv/app/gumo/logging/__init__.py"
                          149 "_find_caller";
              mkFrameInfo None "/srv/app/main.py" 35 "root"] None in
  let st := snd (LoggerManager._build_logger "error_logger" Logging.Stderr Logging.DEBUG
                   (snd (LoggerManager._build_logger "default_logger" Logging.Stdout
                           Logging.DEBUG Logging.initial))) in
  let self := GumoLogger.__init__ w "myproj" "default_logger" "error_logger"
                (mkLoggerContext None None) false None in
  let msg := mkPyObject false "'boom'" "boom" in
  GumoLogger.error self w msg st ≫= (λ r, Ok (Logging.output (snd r) Logging.Stderr))
    = Ok ["[2020-01-01 09:00:00]ERROR:main.py:35: boom" +:+ PyStr.nl]
  ∧ GumoLogger.error self w msg st ≫= (λ r, Ok (Logging.output (snd r) Logging.Stdout))
    = Ok []
  ∧ GumoLogger.info self w msg st ≫= (λ r, Ok (Logging.output (snd r) Logging.Stdout))
    = Ok ["[2020-01-01 09:00:00]INFO:main.py:35: boom" +:+ PyStr.nl].
Proof.
  vm_compute. repeat split.
Qed.

(** ** Construction of the manager *)

(** What [_build_logger] does to the registry: the logger stops
    propagating and takes the level; the new handler is attached only when
    the logger has none. *)
Lemma build_logger_spec (name : string) (stream : Logging.Stream) (level : Z)
    (st : Logging.Store) :
  let h := Logging.mkHandler (Logging.next_handler_id st) stream level
             (Some (Logging.mkFormatter "%(message)s")) in
  let old := match Logging.loggerDict st !! name with
             | Some l => Logging.handlers l
             | None => []
             end in
  LoggerManager._build_logger name stream level st =
  ((name, h),
   Logging.mkStore
     (<[name := Logging.mkLogger false level
                  match old with [] => [h] | _ :: _ => old end]> (Logging.loggerDict st))
     (Logging.root st) (S (Logging.next_handler_id st))
     (Logging.stdout st) (Logging.stderr st)).
Proof.
  intros h old. subst h old.
  unfold LoggerManager._build_logger, Logging.StreamHandler, Logging.getLogger.
  cbn [Logging.loggerDict Logging.next_handler_id Logging.root Logging.stdout
       Logging.stderr Logging.Handler_setLevel Logging.Handler_setFormatter
       Logging.handler_id Logging.handler_stream Logging.handler_level
       Logging.handler_formatter].
  destruct (Logging.loggerDict st !! name) as [l|] eqn:Hl.
  - unfold Logging.hasHandlers, Logging.addHandler, Logging.setLevel,
      Logging.set_propagate, Logging.update, Logging.set_loggers.
    cbn [Logging.loggerDict Logging.next_handler_id Logging.root Logging.stdout
         Logging.stderr].
    rewrite !lookup_alter_eq, Hl. cbn.
    destruct (Logging.handlers l) as [|h0 hs] eqn:Hh; cbn.
    + rewrite !alter_alter_eq. rewrite (alter_alt_Some _ _ _ _ Hl). cbn.
      rewrite Hh. reflexivity.
    + rewrite !alter_alter_eq. rewrite (alter_alt_Some _ _ _ _ Hl). cbn.
      rewrite Hh. reflexivity.
  - unfold Logging.hasHandlers, Logging.addHandler, Logging.setLevel,
      Logging.set_propagate, Logging.update, Logging.set_loggers.
    cbn [Logging.loggerDict Logging.next_handler_id Logging.root Logging.stdout
         Logging.stderr].
    rewrite !alter_insert_eq, lookup_insert_eq. cbn. reflexivity.
Qed.

(** The registry after [LoggerManager()]: one entry changes, the logger
    named [default_logger], and it gains the standard-output handler only
    when it had no handler. *)
Lemma init_loggerDict (w : World) (fetch : option (World → option LoggerContext))
    (st : Logging.Store) :
  Logging.loggerDict (snd (LoggerManager.__init__ w fetch st)) =
  <["default_logger" :=
      Logging.mkLogger false Logging.DEBUG
        match match Logging.loggerDict st !! "default_logger" with
              | Some l => Logging.handlers l
              | None => []
              end with
        | [] => [Logging.mkHandler (Logging.next_handler_id st) Logging.Stdout Logging.DEBUG
                   (Some (Logging.mkFormatter "%(message)s"))]
        | h :: hs => h :: hs
        end]> (Logging.loggerDict st).
Proof.
  unfold LoggerManager.__init__.
  rewrite (build_logger_spec "default_logger" Logging.Stdout LoggerManager.DEBUG st).
  cbv zeta. cbn iota beta.
  rewrite build_logger_spec. cbv zeta. cbn [snd Logging.loggerDict].
  rewrite lookup_insert_eq. cbn [Logging.handlers].
  rewrite insert_insert_eq.
  destruct (match Logging.loggerDict st !! "default_logger" with
            | Some l => Logging.handlers l
            | None => []
            end); reflexivity.
Qed.

(** Constructing a second manager registers no further handler. *)
Lemma second_manager_registers_no_handler (w1 w2 : World)
    (fetch1 fetch2 : option (World → option LoggerContext)) (st : Logging.Store) :
  let st1 := snd (LoggerManager.__init__ w1 fetch1 st) in
  let st2 := snd (LoggerManager.__init__ w2 fetch2 st1) in
  Logging.loggerDict st2 = Logging.loggerDict st1.
Proof.
  cbv zeta. rewrite (init_loggerDict w2), (init_loggerDict w1).
  rewrite lookup_insert_eq, insert_insert_eq. cbn [Logging.handlers].
  destruct (match Logging.loggerDict st !! "default_logger" with
            | Some l => Logging.handlers l
            | None => []
            end); reflexivity.
Qed.

(** C3: construction does not build an error sink bound to the standard
    error stream.  Both calls of [_build_logger] pass the name
    [default_logger], so both sinks are the one registered logger; the first
    call attaches the standard-output handler, the second finds a handler
    present and attaches nothing.  The standard-error handler exists (and is
    flushed) but belongs to no logger, and every record, errors included, is
    written to the standard output. *)
Theorem manager_error_sink_is_the_stdout_logger
    (w : World) (fetch : option (World → option LoggerContext)) :
  let m := fst (LoggerManager.__init__ w fetch Logging.initial) in
  let st := snd (LoggerManager.__init__ w fetch Logging.initial) in
  LoggerManager._default_logger m = "default_logger"
  ∧ LoggerManager._error_logger m = "default_logger"
  ∧ Logging.loggerDict st !! "default_logger"
    = Some (Logging.mkLogger false Logging.DEBUG [LoggerManager._default_handler m])
  ∧ Logging.handler_stream (LoggerManager._default_handler m) = Logging.Stdout
  ∧ Logging.handler_stream (LoggerManager._error_handler m) = Logging.Stderr
  ∧ Logging.handler_formatter (LoggerManager._default_handler m)
    = Some (Logging.mkFormatter "%(message)s")
  ∧ ∀ (level : Z) (line : string),
      In level severities →
      Logging.output (Logging.log (LoggerManager._error_logger m) level line st)
                     Logging.Stderr = []
      ∧ Logging.output (Logging.log (LoggerManager._error_logger m) level line st)
                       Logging.Stdout = [line +:+ PyStr.nl].
Proof.
  intros m st.
  assert (Hlogger : Logging.loggerDict st !! "default_logger"
                    = Some (Logging.mkLogger false Logging.DEBUG
                              [LoggerManager._default_handler m])).
  { subst m st. rewrite init_loggerDict. rewrite lookup_insert_eq. reflexivity. }
  do 6 (split; [first [reflexivity | exact Hlogger]|]).
  intros level line Hlevel.
  change (LoggerManager._error_logger m) with "default_logger".
  rewrite (log_single_handler _ _ level line st Hlevel Hlogger eq_refl).
  split.
  - rewrite output_emit_other by discriminate. reflexivity.
  - change Logging.Stdout with (Logging.handler_stream (LoggerManager._default_handler m)).
    rewrite output_emit_same.
    change (Logging.handler_formatter (LoggerManager._default_handler m))
      with (Some (Logging.mkFormatter "%(message)s")).
    rewrite format_message_only. reflexivity.
Qed.


(** * Further properties of the module *)

(** ** The pieces of a split *)

Section SplitPieces.

Variable c : Ascii.ascii.

Lemma has_char_snoc (c' d : Ascii.ascii) (s : string) :
  PyStr.has_char c' (s +:+ String d "") = PyStr.has_char c' s || Ascii.eqb c' d.
Proof.
  rewrite has_char_app. simpl. destruct (Ascii.eqb c' d); reflexivity.
Qed.

(** No piece of a split holds the separator. *)
Lemma split_scan_pieces_no_sep (s cur : string) :
  PyStr.has_char c cur = false →
  Forall (fun p => PyStr.has_char c p = false) (PyStr.split_scan s (String c "") O cur).
Proof.
  revert cur. induction s as [|d s IH]; intros cur Hcur.
  - simpl. constructor; [exact Hcur | constructor].
  - rewrite split_scan_step. destruct (Ascii.eqb c d) eqn:E.
    + constructor; [exact Hcur | apply IH; reflexivity].
    + apply IH. rewrite has_char_snoc, Hcur, E. reflexivity.
Qed.

(** A character absent from the string is absent from every piece. *)
Lemma split_scan_pieces_no_char (c' : Ascii.ascii) (s cur : string) :
  PyStr.has_char c' cur = false →
  PyStr.has_char c' s = false →
  Forall (fun p => PyStr.has_char c' p = false) (PyStr.split_scan s (String c "") O cur).
Proof.
  revert cur. induction s as [|d s IH]; intros cur Hcur Hs.
  - simpl. constructor; [exact Hcur | constructor].
  - simpl in Hs. destruct (Ascii.eqb c' d) eqn:E'; [discriminate|].
    rewrite split_scan_step. destruct (Ascii.eqb c d).
    + constructor; [exact Hcur | apply IH; [reflexivity | exact Hs]].
    + apply IH; [|exact Hs]. rewrite has_char_snoc, Hcur, E'. reflexivity.
Qed.

End SplitPieces.

(** ** The trace header parser on every header *)

(** Truncation of [sp] followed by nothing, or by [';'] and options, gives
    [sp] back when [sp] itself has no [';']. *)
Lemma truncate_options_span (sp rest : string) :
  PyStr.has_char PyStr.semicolon sp = false →
  rest = "" ∨ (∃ o, rest = ";" +:+ o) →
  (if 0 <=? PyStr.find (sp +:+ rest) ";"
   then pieces ← PyStr.split (sp +:+ rest) ";"; index pieces 0
   else Ok (sp +:+ rest)) = Ok sp.
Proof.
  intros Hsp [-> | [o ->]].
  - rewrite str_app_nil_r.
    pose proof (find_sign PyStr.semicolon sp) as Hf. rewrite Hsp in Hf.
    change (String PyStr.semicolon "") with ";" in Hf. rewrite Hf. reflexivity.
  - pose proof (find_sign PyStr.semicolon (sp +:+ ";" +:+ o)) as Hf.
    rewrite has_char_app, Hsp in Hf.
    change ((0 <=? PyStr.find (sp +:+ ";" +:+ o) ";") = true) in Hf.
    rewrite Hf, split_semicolon. unfold_result.
    pose proof (split_scan_first_sep PyStr.semicolon sp o "" Hsp) as Hs.
    change (String PyStr.semicolon "") with ";" in Hs.
    change (String PyStr.semicolon o) with (";" +:+ o) in Hs.
    rewrite Hs. reflexivity.
Qed.

(** X1: a header [<trace-id>/<span-id>] or [<trace-id>/<span-id>;<options>]
    whose trace id has no ['/'], whose span id has neither ['/'] nor [';']
    and whose options have no ['/'] is parsed into the trace
    [projects/<project>/traces/<trace-id>] and the span id, the options
    dropped. *)
Theorem getLoggerContext_parses (m : LoggerManager.t) (tid sp rest : string) :
  PyStr.has_char PyStr.slash tid = false →
  PyStr.has_char PyStr.slash sp = false →
  PyStr.has_char PyStr.semicolon sp = false →
  PyStr.has_char PyStr.slash rest = false →
  rest = "" ∨ (∃ o, rest = ";" +:+ o) →
  LoggerManager.getLoggerContext m (Some (tid +:+ "/" +:+ sp +:+ rest)) =
  Ok (mkLoggerContext
        (Some ("projects/" +:+ LoggerManager._project_id m +:+ "/traces/" +:+ tid))
        (Some sp)).
Proof.
  intros Ht Hsp Hsemi Hrest Hshape. unfold LoggerManager.getLoggerContext.
  rewrite (build_one_slash m tid (sp +:+ rest) Ht)
    by (rewrite has_char_app, Hsp, Hrest; reflexivity).
  rewrite (truncate_options_span sp rest Hsemi Hshape). reflexivity.
Qed.

Lemma getLoggerContext_parses_witness :
  LoggerManager.getLoggerContext
    (LoggerManager.mk "<unknown-project>" None false "default_logger"
       (Logging.mkHandler 0 Logging.Stdout 10 None) "default_logger"
       (Logging.mkHandler 1 Logging.Stderr 10 None))
    (Some ("105445aa7843bc8bf206b12000100000" +:+ "/" +:+ "1" +:+ ";o=1")) =
  Ok (mkLoggerContext
        (Some "projects/<unknown-project>/traces/105445aa7843bc8bf206b12000100000")
        (Some "1")).
Proof.
  exact (getLoggerContext_parses
           (LoggerManager.mk "<unknown-project>" None false "default_logger"
              (Logging.mkHandler 0 Logging.Stdout 10 None) "default_logger"
              (Logging.mkHandler 1 Logging.Stderr 10 None))
           "105445aa7843bc8bf206b12000100000" "1" ";o=1"
           eq_refl eq_refl eq_refl eq_refl (or_intror (ex_intro _ "o=1" eq_refl))).
Defined.

(** X2: whatever the header, a context that [getLoggerContext] returns for
    a non-null header has a trace of the form
    [projects/<project>/traces/<x>] with no ['/'] in [x]; it has a span id
    exactly when the header has a ['/'], and that span id holds neither
    ['/'] nor [';']. *)
Theorem getLoggerContext_shape (m : LoggerManager.t) (h : string) (ctx : LoggerContext) :
  LoggerManager.getLoggerContext m (Some h) = Ok ctx →
  (∃ x, trace ctx = Some ("projects/" +:+ LoggerManager._project_id m +:+ "/traces/" +:+ x)
        ∧ PyStr.has_char PyStr.slash x = false)
  ∧ (is_Some (span_id ctx) ↔ PyStr.has_char PyStr.slash h = true)
  ∧ ∀ s, span_id ctx = Some s →
         PyStr.has_char PyStr.slash s = false ∧ PyStr.has_char PyStr.semicolon s = false.
Proof.
  unfold LoggerManager.getLoggerContext. intros H.
  destruct (PyStr.has_char PyStr.slash h) eqn:Hh.
  - unfold LoggerManager._build_trace_and_span in H.
    pose proof (find_sign PyStr.slash h) as Hf. rewrite Hh in Hf.
    change (String PyStr.slash "") with "/" in Hf.
    rewrite Hf, split_slash in H. unfold mbind, result_bind, mret, result_ret in H.
    pose proof (split_scan_pieces_no_sep PyStr.slash h "" eq_refl) as Hp.
    change (String PyStr.slash "") with "/" in Hp.
    destruct (PyStr.split_scan h "/" 0 "") as [|a [|b [|x l]]];
      simpl unpack2 in H; cbv iota beta in H; try discriminate.
    apply Forall_cons in Hp as [Ha Hp]. apply Forall_cons in Hp as [Hb _].
    pose proof (find_sign PyStr.semicolon b) as Hs.
    change (String PyStr.semicolon "") with ";" in Hs.
    rewrite Hs, split_semicolon in H.
    destruct (PyStr.has_char PyStr.semicolon b) eqn:Hsemi.
    + pose proof (split_scan_pieces_no_sep PyStr.semicolon b "" eq_refl) as Hq.
      pose proof (split_scan_pieces_no_char PyStr.semicolon PyStr.slash b ""
                    eq_refl Hb) as Hq'.
      change (String PyStr.semicolon "") with ";" in Hq, Hq'.
      destruct (PyStr.split_scan b ";" 0 "") as [|p ps]; [discriminate|].
      apply Forall_cons in Hq as [Hq _]. apply Forall_cons in Hq' as [Hq' _].
      simpl in H. injection H as <-. simpl.
      split; [eauto|]. split; [split; eauto|].
      intros s [= <-]. split; assumption.
    + simpl in H. injection H as <-. simpl.
      split; [eauto|]. split; [split; eauto|].
      intros s [= <-]. split; assumption.
  - rewrite (build_no_slash m h Hh) in H. simpl in H. injection H as <-. simpl.
    split; [exists "None"; split; reflexivity|].
    split; [split; [intros [? [=]] | discriminate]|].
    intros s [=].
Qed.

Lemma getLoggerContext_shape_witness :
  let m := LoggerManager.mk "myproj" None false "default_logger"
             (Logging.mkHandler 0 Logging.Stdout 10 None) "default_logger"
             (Logging.mkHandler 1 Logging.Stderr 10 None) in
  let ctx := mkLoggerContext (Some "projects/myproj/traces/abc") (Some "7") in
  (∃ x, trace ctx = Some ("projects/" +:+ LoggerManager._project_id m +:+ "/traces/" +:+ x)
        ∧ PyStr.has_char PyStr.slash x = false)
  ∧ (is_Some (span_id ctx) ↔ PyStr.has_char PyStr.slash "abc/7;o=1;x" = true)
  ∧ ∀ s, span_id ctx = Some s →
         PyStr.has_char PyStr.slash s = false ∧ PyStr.has_char PyStr.semicolon s = false.
Proof.
  intros m ctx. exact (getLoggerContext_shape m "abc/7;o=1;x" ctx eq_refl).
Defined.

(** ** What a log call does to the logger and to the [logging] state *)

Lemma extends_refl (st : Logging.Store) : extends st st.
Proof. split; [reflexivity | intros s; reflexivity]. Qed.

Lemma extends_trans (st1 st2 st3 : Logging.Store) :
  extends st1 st2 → extends st2 st3 → extends st1 st3.
Proof.
  intros [Hr1 Ho1] [Hr2 Ho2]. split.
  - rewrite Hr2. exact Hr1.
  - intros s. etransitivity; [apply Ho1 | apply Ho2].
Qed.

Lemma write_flush_extends (x : Logging.Stream) (text : string) (st : Logging.Store) :
  extends st (Logging.flush x (Logging.write x text st)).
Proof.
  split.
  - unfold Logging.flush, Logging.write, registry. destruct x; reflexivity.
  - intros s. unfold Logging.output, Logging.flush, Logging.write.
    destruct x, s; simpl; rewrite ?app_nil_r, ?app_assoc;
      first [reflexivity | apply prefix_app_r; reflexivity].
Qed.

Lemma emit_extends (h : Logging.Handler) (message : string) (st : Logging.Store) :
  extends st (Logging.emit h message st).
Proof. apply write_flush_extends. Qed.

Lemma handle_all_extends (hs : list Logging.Handler) (levelno : Z) (message : string)
    (st : Logging.Store) :
  extends st (Logging.handle_all hs levelno message st).
Proof.
  unfold Logging.handle_all. revert st.
  induction hs as [|h hs IH]; intros st; [apply extends_refl|].
  simpl. eapply extends_trans; [|apply IH].
  destruct (Logging.handler_level h <=? levelno); [apply emit_extends | apply extends_refl].
Qed.

Lemma callHandlers_extends (l : Logging.Logger) (levelno : Z) (message : string)
    (st : Logging.Store) :
  extends st (Logging.callHandlers l levelno message st).
Proof.
  unfold Logging.callHandlers.
  pose proof (handle_all_extends (Logging.handlers l) levelno message st) as H1.
  destruct (Logging.propagate l).
  - pose proof (handle_all_extends (Logging.handlers (Logging.root st)) levelno message
                  (Logging.handle_all (Logging.handlers l) levelno message st)) as H2.
    pose proof (extends_trans _ _ _ H1 H2) as H12.
    destruct (length (Logging.handlers l) + length (Logging.handlers (Logging.root st)))%nat;
      [|exact H12].
    destruct (Logging.WARNING <=? levelno); [|exact H12].
    eapply extends_trans; [exact H12 | apply write_flush_extends].
  - destruct (length (Logging.handlers l)); [|exact H1].
    destruct (Logging.WARNING <=? levelno); [|exact H1].
    eapply extends_trans; [exact H1 | apply write_flush_extends].
Qed.

Lemma Logging_log_extends (name : string) (lvl : Z) (msg : string) (st : Logging.Store) :
  extends st (Logging.log name lvl msg st).
Proof.
  unfold Logging.log. destruct (Logging.loggerDict st !! name) as [l|];
    [|apply extends_refl].
  destruct (Logging.isEnabledFor l lvl st); [apply callHandlers_extends | apply extends_refl].
Qed.

(** The result of a log call: the logger with the refreshed context, and
    the [logging] state after the line went to the sink the level selects. *)
Lemma log_returns (self : GumoLogger.t) (w : World) (level : Z) (msg : PyObject)
    (st : Logging.Store) :
  let self' := GumoLogger._fetch_logger_context self w in
  ∃ line,
    GumoLogger._formatter self' w (GumoLogger._build_log_payload self' w level msg) = Ok line
    ∧ GumoLogger._log self w level msg st =
      Ok (self',
          Logging.log (if GumoLogger.ERROR <=? level
                       then GumoLogger._error_logger self'
                       else GumoLogger._default_logger self') level line st).
Proof.
  cbv zeta.
  destruct (formatter_payload_ok (GumoLogger._fetch_logger_context self w) w level msg)
    as [line Hline].
  exists line. split; [exact Hline|].
  unfold GumoLogger._log. rewrite Hline. unfold_result.
  destruct (GumoLogger.ERROR <=? level); reflexivity.
Qed.

Lemma fetch_logger_context_frame (self : GumoLogger.t) (w : World) :
  GumoLogger._fetch_logger_context self w =
  GumoLogger.set_logger_context self
    (GumoLogger._logger_context (GumoLogger._fetch_logger_context self w)).
Proof.
  unfold GumoLogger._fetch_logger_context.
  destruct (GumoLogger._fetch_logger_context_func self) as [f|];
    [destruct (f w)|]; destruct self; reflexivity.
Qed.


(** X4: a log call leaves the [logging] registry as it was (no logger or
    handler is added, removed or reconfigured) and only appends to the two
    streams: what a stream held before the call it still holds, in the same
    order, as a prefix of what it holds after. *)
Theorem log_only_appends (self self' : GumoLogger.t) (w : World) (level : Z)
    (msg : PyObject) (st st' : Logging.Store) :
  GumoLogger._log self w level msg st = Ok (self', st') →
  Logging.loggerDict st' = Logging.loggerDict st
  ∧ Logging.root st' = Logging.root st
  ∧ Logging.next_handler_id st' = Logging.next_handler_id st
  ∧ ∀ s, Logging.output st s `prefix_of` Logging.output st' s.
Proof.
  destruct (log_returns self w level msg st) as (line & _ & Hlog).
  rewrite Hlog. intros [= _ <-].
  destruct (Logging_log_extends
              (if GumoLogger.ERROR <=? level
               then GumoLogger._error_logger (GumoLogger._fetch_logger_context self w)
               else GumoLogger._default_logger (GumoLogger._fetch_logger_context self w))
              level line st) as [Hreg Hout].
  unfold registry in Hreg. injection Hreg as -> -> ->. auto.
Qed.

Lemma log_only_appends_witness :
  let w := mkWorld ∅ "/srv/app" "2020-01-01T00:00:00" "2020-01-01 09:00:00"
             [mkFrameInfo (Some GumoLoggerClass) "/srv/app/gumo/logging/__init__.py"
                          149 "_find_caller";
              mkFrameInfo None "/srv/app/main.py" 35 "root"] None in
  let st := snd (LoggerManager.__init__ w None Logging.initial) in
  let self := GumoLogger.__init__ w "myproj" "default_logger" "default_logger"
                (mkLoggerContext None None) false None in
  let st' := Logging.log "default_logger" GumoLogger.INFO
               "[2020-01-01 09:00:00]INFO:main.py:35: hi" st in
  Logging.loggerDict st' = Logging.loggerDict st
  ∧ Logging.root st' = Logging.root st
  ∧ Logging.next_handler_id st' = Logging.next_handler_id st
  ∧ ∀ s, Logging.output st s `prefix_of` Logging.output st' s.
Proof.
  intros w st self st'.
  exact (log_only_appends self self w GumoLogger.INFO (mkPyObject false "'hi'" "hi")
           st st' eq_refl).
Defined.

(** X5: when the hook returns a context, the log call binds it, and the
    logger the call leaves keeps it: a later call for which the hook returns
    nothing builds its record with that context, not with the one the logger
    was constructed with. *)
Theorem refreshed_context_persists (self : GumoLogger.t) (w : World) (level : Z)
    (msg : PyObject) (st : Logging.Store) (f : World → option LoggerContext)
    (c : LoggerContext) :
  GumoLogger._fetch_logger_context_func self = Some f →
  f w = Some c →
  ∃ (self' : GumoLogger.t) (st' : Logging.Store),
    GumoLogger._log self w level msg st = Ok (self', st')
    ∧ GumoLogger._logger_context self' = c
    ∧ ∀ (w' : World) (level' : Z) (msg' : PyObject),
        f w' = None →
        let j := GumoLogger._build_log_payload
                   (GumoLogger._fetch_logger_context self' w') w' level' msg' in
        dict_get j GumoLogger.trace_key = VStr <$> trace c
        ∧ dict_get j GumoLogger.spanId_key = VStr <$> span_id c.
Proof.
  intros Hf Hc.
  destruct (log_returns self w level msg st) as (line & _ & Hlog).
  eexists _, _. split; [exact Hlog|].
  assert (Hctx : GumoLogger._logger_context (GumoLogger._fetch_logger_context self w) = c).
  { unfold GumoLogger._fetch_logger_context. rewrite Hf, Hc. reflexivity. }
  split; [exact Hctx|].
  intros w' level' msg' Hnone. cbv zeta.
  rewrite payload_get_trace, payload_get_spanId.
  assert (Hkeep : GumoLogger._fetch_logger_context
                    (GumoLogger._fetch_logger_context self w) w'
                  = GumoLogger._fetch_logger_context self w).
  { unfold GumoLogger._fetch_logger_context at 1.
    rewrite (fetch_logger_context_frame self w). simpl. rewrite Hf, Hnone. reflexivity. }
  rewrite Hkeep, Hctx. split; reflexivity.
Qed.

Lemma refreshed_context_persists_witness :
  let request := mkLoggerContext (Some "projects/myproj/traces/abc123") (Some "456") in
  let f := fun w : World => match exc_info w with Some _ => None | None => Some request end in
  let w := mkWorld ∅ "/srv/app" "2020-01-01T00:00:00" "2020-01-01 09:00:00" [] None in
  let self := GumoLogger.__init__ w "myproj" "default_logger" "default_logger"
                (mkLoggerContext None None) true (Some f) in
  ∃ (self' : GumoLogger.t) (st' : Logging.Store),
    GumoLogger._log self w GumoLogger.INFO (mkPyObject false "'hi'" "hi") Logging.initial
      = Ok (self', st')
    ∧ GumoLogger._logger_context self' = request
    ∧ ∀ (w' : World) (level' : Z) (msg' : PyObject),
        f w' = None →
        let j := GumoLogger._build_log_payload
                   (GumoLogger._fetch_logger_context self' w') w' level' msg' in
        dict_get j GumoLogger.trace_key = VStr <$> trace request
        ∧ dict_get j GumoLogger.spanId_key = VStr <$> span_id request.
Proof.
  intros request f w self.
  exact (refreshed_context_persists self w GumoLogger.INFO (mkPyObject false "'hi'" "hi")
           Logging.initial f request eq_refl eq_refl).
Defined.

(** X6: in text mode the line does not depend on the bound context: the
    trace and the span id are in the payload but are never printed. *)
Theorem text_line_ignores_context (self : GumoLogger.t) (w : World) (level : Z)
    (msg : PyObject) (c : LoggerContext) :
  GumoLogger._structured_log_enabled self = false →
  GumoLogger._formatter (GumoLogger.set_logger_context self c) w
    (GumoLogger._build_log_payload (GumoLogger.set_logger_context self c) w level msg)
  = GumoLogger._formatter self w (GumoLogger._build_log_payload self w level msg).
Proof.
  intros Htext. unfold GumoLogger._formatter. simpl. rewrite Htext.
  rewrite !text_formatter_payload. reflexivity.
Qed.

Lemma text_line_ignores_context_witness :
  let w := mkWorld ∅ "/srv/app" "2020-01-01T00:00:00" "2020-01-01 09:00:00"
             [mkFrameInfo (Some GumoLoggerClass) "/srv/app/gumo/logging/__init__.py"
                          149 "_find_caller";
              mkFrameInfo None "/srv/app/main.py" 35 "root"] None in
  let self := GumoLogger.__init__ w "myproj" "default_logger" "default_logger"
                (mkLoggerContext None None) false None in
  let c := mkLoggerContext (Some "projects/myproj/traces/abc123") (Some "456") in
  let msg := mkPyObject false "'hi'" "hi" in
  GumoLogger._formatter (GumoLogger.set_logger_context self c) w
    (GumoLogger._build_log_payload (GumoLogger.set_logger_context self c) w
       GumoLogger.INFO msg)
  = GumoLogger._formatter self w (GumoLogger._build_log_payload self w GumoLogger.INFO msg).
Proof.
  intros w self c msg.
  exact (text_line_ignores_context self w GumoLogger.INFO msg c eq_refl).
Defined.

(** ** The structured line *)

Lemma all_chars_app (p : Ascii.ascii → bool) (a b : string) :
  all_chars p (a +:+ b) = all_chars p a && all_chars p b.
Proof.
  induction a as [|c a IH]; [reflexivity|].
  rewrite str_app_cons. simpl. rewrite IH. apply andb_assoc.
Qed.

Lemma all_chars_no_char (p : Ascii.ascii → bool) (c : Ascii.ascii) (s : string) :
  p c = false → all_chars p s = true → PyStr.has_char c s = false.
Proof.
  intros Hc. induction s as [|d s IH]; [reflexivity|].
  simpl. intros [Hd Hs]%andb_true_iff.
  destruct (Ascii.eqb_spec c d) as [<- | _]; [congruence | auto].
Qed.

Lemma uint_no_control (d : Decimal.uint) :
  all_chars not_control (NilEmpty.string_of_uint d) = true.
Proof. induction d; simpl; auto. Qed.

Lemma of_int_no_control (n : Z) : all_chars not_control (PyStr.of_int n) = true.
Proof.
  unfold PyStr.of_int, NilZero.string_of_int.
  destruct (Z.to_int n) as [d | d]; destruct d; simpl; try reflexivity;
    apply uint_no_control.
Qed.

Lemma escape_char_no_control (c : Ascii.ascii) :
  all_chars not_control (Json.escape_char c) = true.
Proof.
  destruct c as [[|] [|] [|] [|] [|] [|] [|] [|]]; reflexivity.
Qed.

Lemma escape_no_control (s : string) : all_chars not_control (Json.escape s) = true.
Proof.
  induction s as [|c s IH]; [reflexivity|].
  simpl. rewrite all_chars_app, escape_char_no_control, IH. reflexivity.
Qed.

Lemma encode_str_no_control (s : string) :
  all_chars not_control (Json.encode_str s) = true.
Proof.
  unfold Json.encode_str. rewrite !all_chars_app, escape_no_control. reflexivity.
Qed.

Lemma join_no_control (sep : string) (parts : list string) :
  all_chars not_control sep = true →
  Forall (fun x => all_chars not_control x = true) parts →
  all_chars not_control (PyStr.join sep parts) = true.
Proof.
  intros Hsep Hparts. unfold PyStr.join.
  induction Hparts as [|x parts Hx Hparts IH]; [reflexivity|].
  simpl. destruct parts as [|y parts]; [exact Hx|].
  change (all_chars not_control (x +:+ sep +:+ String.concat sep (y :: parts)) = true).
  rewrite !all_chars_app, Hx, Hsep, IH. reflexivity.
Qed.

Lemma dumps_no_control : ∀ v : pyval, all_chars not_control (Json.dumps v) = true.
Proof.
  fix IH 1. intros [s | n | d].
  - apply encode_str_no_control.
  - apply of_int_no_control.
  - change (all_chars not_control
              ("{" +:+
               PyStr.join ", "
                 (map (fun kv : string * pyval =>
                         let '(k, x) := kv in Json.encode_str k +:+ ": " +:+ Json.dumps x) d)
               +:+ "}") = true).
    rewrite !all_chars_app. simpl all_chars at 1 3.
    rewrite join_no_control; [reflexivity | reflexivity |].
    induction d as [|[k x] d IHd]; constructor.
    + rewrite !all_chars_app, encode_str_no_control, (IH x). reflexivity.
    + exact IHd.
Qed.

(** X7: the structured line holds no control character (none below 0x20),
    whatever the payload: a message with line breaks, such as an error with
    its traceback, is still printed as one line. *)
Theorem json_line_is_one_line (d : dict) :
  all_chars not_control (GumoLogger._json_formatter d) = true
  ∧ PyStr.has_char (Ascii.ascii_of_nat 10) (GumoLogger._json_formatter d) = false
  ∧ PyStr.has_char (Ascii.ascii_of_nat 13) (GumoLogger._json_formatter d) = false.
Proof.
  pose proof (dumps_no_control (VDict d)) as H. unfold GumoLogger._json_formatter.
  split; [exact H|].
  split; apply (all_chars_no_char not_control); first [reflexivity | exact H].
Qed.

(** ** The caller, read back from the result *)

Lemma find_caller_loop_inside_some (frames : list FrameInfo) (frame : FrameInfo) :
  GumoLogger._find_caller_loop frames true = Some frame →
  ∃ run rest,
    frames = (run ++ frame :: rest)%list
    ∧ forallb GumoLogger.stack_in_custom_logger run = true
    ∧ GumoLogger.stack_in_custom_logger frame = false.
Proof.
  induction frames as [|f frames IH]; [discriminate|].
  simpl. destruct (GumoLogger.stack_in_custom_logger f) eqn:E.
  - intros H. destruct (IH H) as (run & rest & -> & Hrun & Hf).
    exists (f :: run), rest. simpl. rewrite E. auto.
  - intros [= <-]. exists [], frames. auto.
Qed.

Lemma find_caller_loop_some (frames : list FrameInfo) (frame : FrameInfo) :
  GumoLogger._find_caller_loop frames false = Some frame →
  ∃ pre run rest,
    frames = (pre ++ run ++ frame :: rest)%list
    ∧ forallb (fun f => negb (GumoLogger.stack_in_custom_logger f)) pre = true
    ∧ run ≠ []
    ∧ forallb GumoLogger.stack_in_custom_logger run = true
    ∧ GumoLogger.stack_in_custom_logger frame = false.
Proof.
  induction frames as [|f frames IH]; [discriminate|].
  simpl. destruct (GumoLogger.stack_in_custom_logger f) eqn:E.
  - intros H. destruct (find_caller_loop_inside_some frames frame H)
      as (run & rest & -> & Hrun & Hf).
    exists [], (f :: run), rest. simpl. rewrite E. auto.
  - intros H. destruct (IH H) as (pre & run & rest & -> & Hpre & Hne & Hrun & Hf).
    exists (f :: pre), run, rest. simpl. rewrite E. auto.
Qed.

(** X8: a location that [_find_caller] returns is the position of a frame
    of the stack that is not inside the logger, and that frame comes right
    after a non-empty run of logger frames before which no logger frame
    occurs: a frame of the logger is never reported, nor is a frame the
    logger did not call through. *)
Theorem find_caller_reports_a_calling_frame (w : World) (loc : dict) :
  GumoLogger._find_caller w = Some loc →
  ∃ (pre run rest : list FrameInfo) (frame : FrameInfo),
    stack w = (pre ++ run ++ frame :: rest)%list
    ∧ forallb (fun f => negb (GumoLogger.stack_in_custom_logger f)) pre = true
    ∧ run ≠ []
    ∧ forallb GumoLogger.stack_in_custom_logger run = true
    ∧ GumoLogger.stack_in_custom_logger frame = false
    ∧ loc = [("file", VStr (filename frame)); ("line", VInt (lineno frame));
             ("function", VStr (function frame))].
Proof.
  unfold GumoLogger._find_caller.
  destruct (GumoLogger._find_caller_loop (stack w) false) as [frame|] eqn:E; [|discriminate].
  intros [= <-].
  destruct (find_caller_loop_some (stack w) frame E) as (pre & run & rest & H).
  exists pre, run, rest, frame. intuition.
Qed.

Lemma find_caller_reports_a_calling_frame_witness :
  let internal := mkFrameInfo (Some GumoLoggerClass) "/srv/app/gumo/logging/__init__.py" in
  let w := mkWorld ∅ "/srv/app" "2020-01-01T00:00:00" "2020-01-01 09:00:00"
             [mkFrameInfo None "/usr/lib/python3/inspect.py" 1500 "stack";
              internal 149 "_find_caller"; internal 73 "_build_log_payload";
              internal 115 "_log"; internal 125 "info";
              mkFrameInfo None "/srv/app/main.py" 35 "root";
              internal 125 "info"] None in
  ∃ (pre run rest : list FrameInfo) (frame : FrameInfo),
    stack w = (pre ++ run ++ frame :: rest)%list
    ∧ forallb (fun f => negb (GumoLogger.stack_in_custom_logger f)) pre = true
    ∧ run ≠ []
    ∧ forallb GumoLogger.stack_in_custom_logger run = true
    ∧ GumoLogger.stack_in_custom_logger frame = false
    ∧ [("file", VStr "/srv/app/main.py"); ("line", VInt 35); ("function", VStr "root")]
      = [("file", VStr (filename frame)); ("line", VInt (lineno frame));
         ("function", VStr (function frame))].
Proof.
  intros internal w.
  exact (find_caller_reports_a_calling_frame w
           [("file", VStr "/srv/app/main.py"); ("line", VInt 35); ("function", VStr "root")]
           eq_refl).
Defined.

(** ** The keys of a record *)

(** X9: the keys of a record come in a fixed order, the order of the
    fields of the structured line: timestamp, Message, severity, then the
    trace, the span id and the source location, each only when present; no
    key occurs twice. *)
Theorem payload_key_order (self : GumoLogger.t) (w : World) (level : Z) (msg : PyObject) :
  let j := GumoLogger._build_log_payload self w level msg in
  keys j =
    (["timestamp"; "Message"; "severity"]
     ++ match trace (GumoLogger._logger_context self) with
        | Some _ => [GumoLogger.trace_key]
        | None => []
        end
     ++ match span_id (GumoLogger._logger_context self) with
        | Some _ => [GumoLogger.spanId_key]
        | None => []
        end
     ++ match GumoLogger._find_caller w with
        | Some _ => [GumoLogger.sourceLocation_key]
        | None => []
        end)%list
  ∧ NoDup (keys j).
Proof.
  cbv zeta. unfold GumoLogger._build_log_payload.
  destruct (trace _), (span_id _), (GumoLogger._find_caller w);
    (split; [reflexivity | apply (bool_decide_unpack _); vm_compute; exact I]).
Qed.

(** ** The manager and the [logging] state *)

(** Everything but the registry entry of [default_logger] after
    [LoggerManager()]: two handler objects were created, nothing was
    written. *)
Lemma init_rest (w : World) (fetch : option (World → option LoggerContext))
    (st : Logging.Store) :
  let st' := snd (LoggerManager.__init__ w fetch st) in
  Logging.root st' = Logging.root st
  ∧ Logging.next_handler_id st' = S (S (Logging.next_handler_id st))
  ∧ Logging.stdout st' = Logging.stdout st
  ∧ Logging.stderr st' = Logging.stderr st.
Proof.
  cbv zeta. unfold LoggerManager.__init__.
  rewrite (build_logger_spec "default_logger" Logging.Stdout LoggerManager.DEBUG st).
  cbv zeta. cbn iota beta.
  rewrite build_logger_spec. cbv zeta. simpl. auto.
Qed.

Lemma init_default_logger (w : World) (fetch : option (World → option LoggerContext))
    (st : Logging.Store) :
  ∃ l, Logging.loggerDict (snd (LoggerManager.__init__ w fetch st)) !! "default_logger"
       = Some l
       ∧ Logging.propagate l = false
       ∧ Logging.level l = Logging.DEBUG
       ∧ Logging.handlers l ≠ []
       ∧ (∀ l0, Logging.loggerDict st !! "default_logger" = Some l0 →
                Logging.handlers l0 ≠ [] → Logging.handlers l = Logging.handlers l0).
Proof.
  rewrite init_loggerDict, lookup_insert_eq. eexists. split; [reflexivity|]. simpl.
  split; [reflexivity|]. split; [reflexivity|].
  destruct (Logging.loggerDict st !! "default_logger") as [l0|].
  - destruct (Logging.handlers l0) as [|h hs] eqn:Hh.
    + split; [discriminate|]. intros l1 [= <-] Hne. congruence.
    + split; [discriminate|]. intros l1 [= <-] _. congruence.
  - split; [discriminate|]. intros l1 [=].
Qed.

(** X10: in a [logging] state where no registered logger is a dotted
    descendant of [default_logger], constructing a manager changes one
    registry entry and nothing else: the logger [default_logger], which
    afterwards does not propagate, is at [DEBUG] and has a handler (its own
    handlers are kept when it had some); every other logger, the root logger
    and both streams are as before; and constructing a further manager
    changes no registration at all. *)
Theorem manager_construction_is_idempotent
    (w w2 : World) (fetch fetch2 : option (World → option LoggerContext))
    (st : Logging.Store) :
  (∀ name, is_Some (Logging.loggerDict st !! name) →
           PyStr.startswith name "default_logger." = false) →
  let st' := snd (LoggerManager.__init__ w fetch st) in
  (∃ l, Logging.loggerDict st' !! "default_logger" = Some l
        ∧ Logging.propagate l = false
        ∧ Logging.level l = Logging.DEBUG
        ∧ Logging.handlers l ≠ []
        ∧ (∀ l0, Logging.loggerDict st !! "default_logger" = Some l0 →
                 Logging.handlers l0 ≠ [] → Logging.handlers l = Logging.handlers l0))
  ∧ (∀ name, name ≠ "default_logger" →
             Logging.loggerDict st' !! name = Logging.loggerDict st !! name)
  ∧ (∀ name, is_Some (Logging.loggerDict st' !! name) →
             PyStr.startswith name "default_logger." = false)
  ∧ Logging.root st' = Logging.root st
  ∧ (∀ s, Logging.output st' s = Logging.output st s)
  ∧ Logging.loggerDict (snd (LoggerManager.__init__ w2 fetch2 st'))
    = Logging.loggerDict st'.
Proof.
  intros Hflat. cbv zeta. split; [apply init_default_logger|].
  destruct (init_rest w fetch st) as (Hroot & _ & Hout & Herr).
  split.
  { intros name Hne. rewrite init_loggerDict. apply lookup_insert_ne. congruence. }
  split.
  { intros name. rewrite init_loggerDict.
    destruct (decide (name = "default_logger")) as [-> | Hne]; [reflexivity|].
    rewrite lookup_insert_ne by congruence. apply Hflat. }
  split; [exact Hroot|].
  split.
  { intros s. unfold Logging.output, Logging.stream_state.
    destruct s; [rewrite Hout | rewrite Herr]; reflexivity. }
  rewrite (init_loggerDict w2), (init_loggerDict w).
  rewrite lookup_insert_eq, insert_insert_eq. cbn [Logging.handlers].
  destruct (match Logging.loggerDict st !! "default_logger" with
            | Some l => Logging.handlers l
            | None => []
            end); reflexivity.
Qed.

Lemma manager_construction_is_idempotent_witness :
  let w := mkWorld ∅ "/srv/app" "2020-01-01T00:00:00" "2020-01-01 09:00:00" [] None in
  let other := Logging.mkLogger true Logging.INFO
                 [Logging.mkHandler 0 Logging.Stderr Logging.NOTSET None] in
  let st := Logging.mkStore (<["werkzeug" := other]> ∅)
              (Logging.mkLogger true Logging.WARNING []) 1
              (Logging.mkStreamState [] []) (Logging.mkStreamState [] []) in
  let st' := snd (LoggerManager.__init__ w None st) in
  Logging.loggerDict st' !! "werkzeug" = Some other
  ∧ Logging.loggerDict (snd (LoggerManager.__init__ w None st')) = Logging.loggerDict st'.
Proof.
  intros w other st st'.
  assert (Hflat : ∀ name, is_Some (Logging.loggerDict st !! name) →
                          PyStr.startswith name "default_logger." = false).
  { intros name [l Hl]. destruct (decide (name = "werkzeug")) as [-> | Hne];
      [reflexivity|].
    subst st. simpl in Hl. rewrite lookup_insert_ne in Hl by congruence.
    rewrite lookup_empty in Hl. discriminate. }
  pose proof (manager_construction_is_idempotent w w None None st Hflat)
    as (_ & Hother & _ & _ & _ & Hagain).
  split; [|exact Hagain].
  unfold st'. rewrite (Hother "werkzeug") by discriminate. reflexivity.
Defined.

Lemma flush_flush (x y : Logging.Stream) (st : Logging.Store) :
  Logging.flush x (Logging.flush y (Logging.flush x (Logging.flush y st)))
  = Logging.flush x (Logging.flush y st).
Proof.
  unfold Logging.flush. destruct x, y; simpl; rewrite ?app_nil_r; reflexivity.
Qed.

Lemma flush_output (x s : Logging.Stream) (st : Logging.Store) :
  Logging.output (Logging.flush x st) s = Logging.output st s.
Proof.
  unfold Logging.flush, Logging.output. destruct x, s; simpl; rewrite ?app_nil_r; reflexivity.
Qed.

(** X11: [flush] changes neither what the streams hold nor the registry;
    it moves what is buffered on the two handlers' streams to the
    destination, and a second [flush] in a row changes nothing. *)
Theorem flush_is_idempotent (self : LoggerManager.t) (st : Logging.Store) :
  LoggerManager.flush self (LoggerManager.flush self st) = LoggerManager.flush self st
  ∧ registry (LoggerManager.flush self st) = registry st
  ∧ (∀ s, Logging.output (LoggerManager.flush self st) s = Logging.output st s)
  ∧ Logging.buffered
      (Logging.stream_state (LoggerManager.flush self st)
         (Logging.handler_stream (LoggerManager._default_handler self))) = []
  ∧ Logging.buffered
      (Logging.stream_state (LoggerManager.flush self st)
         (Logging.handler_stream (LoggerManager._error_handler self))) = [].
Proof.
  unfold LoggerManager.flush.
  split; [apply flush_flush|].
  split.
  { unfold registry, Logging.flush.
    destruct (Logging.handler_stream _), (Logging.handler_stream _); reflexivity. }
  split; [intros s; rewrite !flush_output; reflexivity|].
  unfold Logging.flush.
  destruct (Logging.handler_stream _), (Logging.handler_stream _); split; reflexivity.
Qed.



(** X13: after a manager has been constructed, whatever the [logging]
    state was, a record of one of the six severities sent to its sink is
    handled by the handlers of that sink and by nothing else: handlers of
    the root logger never receive it and the last-resort handler is not
    used. *)
Theorem manager_sink_does_not_propagate
    (w : World) (fetch : option (World → option LoggerContext)) (st : Logging.Store)
    (level : Z) (line : string) :
  In level severities →
  let st' := snd (LoggerManager.__init__ w fetch st) in
  ∃ l, Logging.loggerDict st' !! "default_logger" = Some l
       ∧ Logging.log "default_logger" level line st'
         = Logging.handle_all (Logging.handlers l) level line st'.
Proof.
  intros Hlevel st'. subst st'.
  destruct (init_default_logger w fetch st) as (l & Hl & Hprop & Hlvl & Hne & _).
  exists l. split; [exact Hl|].
  destruct (severities_enabled level Hlevel) as [Hpos Hdebug].
  unfold Logging.log. rewrite Hl.
  unfold Logging.isEnabledFor, Logging.getEffectiveLevel.
  rewrite Hpos, Hlvl. simpl. rewrite Hdebug.
  unfold Logging.callHandlers. rewrite Hprop.
  destruct (Logging.handlers l); [congruence | reflexivity].
Qed.

Lemma manager_sink_does_not_propagate_witness :
  let w := mkWorld ∅ "/srv/app" "2020-01-01T00:00:00" "2020-01-01 09:00:00" [] None in
  let basic := Logging.mkHandler 7 Logging.Stderr Logging.NOTSET None in
  let st := Logging.mkStore ∅ (Logging.mkLogger true Logging.WARNING [basic]) 8
              (Logging.mkStreamState [] []) (Logging.mkStreamState [] []) in
  let st' := snd (LoggerManager.__init__ w None st) in
  ∃ l, Logging.loggerDict st' !! "default_logger" = Some l
       ∧ Logging.log "default_logger" GumoLogger.ERROR "boom" st'
         = Logging.handle_all (Logging.handlers l) GumoLogger.ERROR "boom" st'.
Proof.
  intros w basic st st'.
  refine (manager_sink_does_not_propagate w None st GumoLogger.ERROR "boom" _).
  unfold severities. simpl. tauto.
Defined.

(** ** The file of a text line *)

Lemma startswith_app (old rel : string) : PyStr.startswith (old +:+ rel) old = true.
Proof.
  induction old as [|c old IH]; [reflexivity|].
  rewrite str_app_cons. simpl. rewrite Ascii.eqb_refl. exact IH.
Qed.

Lemma replace_scan_skip (a rel old new : string) :
  PyStr.replace_scan (a +:+ rel) old new (String.length a) = PyStr.replace_scan rel old new O.
Proof.
  induction a as [|c a IH]; [reflexivity|].
  rewrite str_app_cons. simpl. exact IH.
Qed.

Lemma replace_scan_absent (s old new : string) (i : Z) :
  0 <= i → PyStr.find_from s old i = -1 → PyStr.replace_scan s old new O = s.
Proof.
  revert i. induction s as [|c s IH]; intros i Hi Hfind; [reflexivity|].
  unfold PyStr.find_from in Hfind; fold PyStr.find_from in Hfind.
  unfold PyStr.replace_scan; fold PyStr.replace_scan.
  destruct (PyStr.startswith (String c s) old); [lia|].
  f_equal. apply (IH (i + 1)); [lia | exact Hfind].
Qed.

(** Removing [old] from [old] followed by a text in which [old] does not
    occur leaves that text. *)
Lemma replace_strips_prefix (old rel : string) :
  old ≠ "" → PyStr.find rel old = -1 → PyStr.replace (old +:+ rel) old "" = rel.
Proof.
  intros Hne Hfind. destruct old as [|c old]; [congruence|].
  unfold PyStr.replace.
  pose proof (startswith_app (String c old) rel) as Hs.
  rewrite str_app_cons in *.
  unfold PyStr.replace_scan; fold PyStr.replace_scan. rewrite Hs.
  rewrite str_app_nil_l. simpl Nat.pred.
  rewrite replace_scan_skip. apply (replace_scan_absent rel _ _ 0); [lia | exact Hfind].
Qed.

Lemma startswith_has_char (c : Ascii.ascii) (s old : string) :
  PyStr.startswith s old = true → PyStr.has_char c old = true → PyStr.has_char c s = true.
Proof.
  revert s. induction old as [|d old IH]; intros s Hs Hc; [discriminate|].
  destruct s as [|e s]; [discriminate|]. simpl in *.
  destruct (Ascii.eqb_spec d e) as [<- | _]; [|discriminate].
  destruct (Ascii.eqb c d); [reflexivity | auto].
Qed.

Lemma replace_scan_no_common_char (c : Ascii.ascii) (s old new : string) :
  PyStr.has_char c old = true → PyStr.has_char c s = false →
  PyStr.replace_scan s old new O = s.
Proof.
  intros Hold. induction s as [|d s IH]; intros Hs; [reflexivity|].
  unfold PyStr.replace_scan; fold PyStr.replace_scan.
  destruct (PyStr.startswith (String d s) old) eqn:E.
  - rewrite (startswith_has_char c _ _ E Hold) in Hs. discriminate.
  - f_equal. apply IH. simpl in Hs. destruct (Ascii.eqb c d); [discriminate | exact Hs].
Qed.

(** X14: in text mode, when the caller's file is the logger's directory
    prefix followed by a relative path in which that prefix does not occur
    again, the line shows exactly the relative path, between the severity
    and the line number. *)
Theorem text_line_shows_relative_path (self : GumoLogger.t) (w : World) (level : Z)
    (msg : PyObject) (frame : FrameInfo) (rel : string) :
  GumoLogger._structured_log_enabled self = false →
  GumoLogger._cwd self ≠ "" →
  GumoLogger._find_caller w = Some (GumoLogger.location frame) →
  filename frame = GumoLogger._cwd self +:+ rel →
  PyStr.find rel (GumoLogger._cwd self) = -1 →
  GumoLogger._formatter self w (GumoLogger._build_log_payload self w level msg) =
  Ok ("[" +:+ now_str w +:+ "]" +:+ GumoLogger.getLevelName level +:+ ":" +:+ rel +:+ ":"
      +:+ PyStr.of_int (lineno frame) +:+ ": " +:+ GumoLogger._build_message_text w msg).
Proof.
  intros Htext Hcwd Hcaller Hfile Hfind.
  unfold GumoLogger._formatter. rewrite Htext, text_formatter_payload.
  unfold GumoLogger._find_caller in Hcaller.
  destruct (GumoLogger._find_caller_loop (stack w) false) as [f|]; [|discriminate].
  injection Hcaller as Hf Hl _.
  rewrite Hf, Hl, Hfile, (replace_strips_prefix _ rel Hcwd Hfind). reflexivity.
Qed.

Lemma text_line_shows_relative_path_witness :
  let frame := mkFrameInfo None "/srv/app/views/error.py" 54 "get" in
  let w := mkWorld ∅ "/srv/app" "2020-01-01T00:00:00" "2020-01-01 09:00:00"
             [mkFrameInfo (Some GumoLoggerClass) "/srv/app/gumo/logging/__init__.py"
                          149 "_find_caller"; frame] None in
  let self := GumoLogger.__init__ w "myproj" "default_logger" "default_logger"
                (mkLoggerContext None None) false None in
  let msg := mkPyObject false "'hi'" "hi" in
  GumoLogger._formatter self w (GumoLogger._build_log_payload self w GumoLogger.WARNING msg) =
  Ok ("[" +:+ now_str w +:+ "]" +:+ GumoLogger.getLevelName GumoLogger.WARNING +:+ ":"
      +:+ "views/error.py" +:+ ":" +:+ PyStr.of_int (lineno frame) +:+ ": "
      +:+ GumoLogger._build_message_text w msg).
Proof.
  intros frame w self msg.
  refine (text_line_shows_relative_path self w GumoLogger.WARNING msg frame
            "views/error.py" eq_refl _ eq_refl eq_refl eq_refl).
  discriminate.
Defined.

(** X15: a logger constructed by [GumoLogger(...)] in text mode prints the
    fall-backs unchanged when the caller is not resolved: the file is
    [<unknown>] and the line is [-], whatever the working directory. *)
Theorem text_line_fallbacks (w : World) (project_id default_logger error_logger : string)
    (logger_context : LoggerContext) (fetch : option (World → option LoggerContext))
    (level : Z) (msg : PyObject) :
  GumoLogger._find_caller w = None →
  let self := GumoLogger.__init__ w project_id default_logger error_logger
                logger_context false fetch in
  GumoLogger._formatter self w (GumoLogger._build_log_payload self w level msg) =
  Ok ("[" +:+ now_str w +:+ "]" +:+ GumoLogger.getLevelName level +:+ ":<unknown>:-: "
      +:+ GumoLogger._build_message_text w msg).
Proof.
  intros Hcaller self. subst self.
  unfold GumoLogger._formatter. simpl GumoLogger._structured_log_enabled. cbv iota.
  rewrite text_formatter_payload.
  unfold GumoLogger._find_caller in Hcaller.
  destruct (GumoLogger._find_caller_loop (stack w) false); [discriminate|].
  assert (Hrep : PyStr.replace "<unknown>" (getcwd w +:+ "/") "" = "<unknown>").
  { unfold PyStr.replace.
    destruct (getcwd w +:+ "/") as [|c old] eqn:E.
    - destruct (getcwd w); discriminate.
    - apply (replace_scan_no_common_char PyStr.slash); [|reflexivity].
      rewrite <- E, has_char_app. simpl. apply orb_true_r. }
  simpl GumoLogger._cwd. rewrite Hrep. reflexivity.
Qed.

Lemma text_line_fallbacks_witness :
  let w := mkWorld ∅ "/" "2020-01-01T00:00:00" "2020-01-01 09:00:00" [] None in
  let self := GumoLogger.__init__ w "myproj" "default_logger" "default_logger"
                (mkLoggerContext None None) false None in
  GumoLogger._formatter self w
    (GumoLogger._build_log_payload self w GumoLogger.INFO (mkPyObject false "'hi'" "hi")) =
  Ok ("[" +:+ now_str w +:+ "]" +:+ GumoLogger.getLevelName GumoLogger.INFO
      +:+ ":<unknown>:-: "
      +:+ GumoLogger._build_message_text w (mkPyObject false "'hi'" "hi")).
Proof.
  intros w self.
  exact (text_line_fallbacks w "myproj" "default_logger" "default_logger"
           (mkLoggerContext None None) None GumoLogger.INFO (mkPyObject false "'hi'" "hi")
           eq_refl).
Defined.

(** ** Loggers minted by a manager *)

(** X16: a logger that [getLogger] returns carries what the manager read
    from the environment when it was constructed: the project id is the
    value of [GOOGLE_CLOUD_PROJECT], or [<unknown-project>] when the variable
    is not set; structured mode is on exactly when [GAE_DEPLOYMENT_ID] is
    set, whatever its value.  The logger is bound to the context parsed from
    the header and to the manager's hook, and its directory prefix is the
    working directory at the time of minting followed by ['/']. *)
Theorem getLogger_carries_the_environment
    (w w' : World) (fetch : option (World → option LoggerContext)) (st : Logging.Store)
    (trace_header : option string) (g : GumoLogger.t) :
  let m := fst (LoggerManager.__init__ w fetch st) in
  LoggerManager.getLogger m w' trace_header = Ok g →
  GumoLogger._project_id g
    = match environ w !! "GOOGLE_CLOUD_PROJECT" with
      | Some v => v
      | None => "<unknown-project>"
      end
  ∧ (GumoLogger._structured_log_enabled g = true
     ↔ is_Some (environ w !! "GAE_DEPLOYMENT_ID"))
  ∧ LoggerManager.getLoggerContext m trace_header = Ok (GumoLogger._logger_context g)
  ∧ GumoLogger._fetch_logger_context_func g = fetch
  ∧ GumoLogger._cwd g = getcwd w' +:+ "/".
Proof.
  intros m. subst m. unfold LoggerManager.getLogger, LoggerManager.__init__.
  rewrite (build_logger_spec "default_logger" Logging.Stdout LoggerManager.DEBUG st).
  cbv zeta. cbn iota beta. rewrite build_logger_spec. cbv zeta. cbn iota beta.
  cbn [fst]. unfold_result.
  destruct (LoggerManager.getLoggerContext _ trace_header) as [ctx|e]; [|discriminate].
  intros [= <-]. simpl.
  split; [reflexivity|]. split; [|auto].
  destruct (environ w !! "GAE_DEPLOYMENT_ID"); split; eauto; try discriminate.
  intros [? [=]].
Qed.

Lemma getLogger_carries_the_environment_witness :
  let w := mkWorld (<["GAE_DEPLOYMENT_ID" := ""]> ∅) "/srv/app" "2020-01-01T00:00:00"
                   "2020-01-01 09:00:00" [] None in
  let m := fst (LoggerManager.__init__ w None Logging.initial) in
  let g := GumoLogger.__init__ w "<unknown-project>" "default_logger" "default_logger"
             (mkLoggerContext (Some "projects/<unknown-project>/traces/abc") (Some "1"))
             true None in
  GumoLogger._project_id g
    = match environ w !! "GOOGLE_CLOUD_PROJECT" with
      | Some v => v
      | None => "<unknown-project>"
      end
  ∧ (GumoLogger._structured_log_enabled g = true
     ↔ is_Some (environ w !! "GAE_DEPLOYMENT_ID"))
  ∧ LoggerManager.getLoggerContext m (Some "abc/1") = Ok (GumoLogger._logger_context g)
  ∧ GumoLogger._fetch_logger_context_func g = None
  ∧ GumoLogger._cwd g = getcwd w +:+ "/".
Proof.
  intros w m g.
  refine (getLogger_carries_the_environment w w None Logging.initial (Some "abc/1") g _).
  vm_compute. reflexivity.
Defined.

(** ** Empty span ids *)

Lemma find_from_startswith (s sub : string) (i : Z) :
  PyStr.startswith s sub = true → PyStr.find_from s sub i = i.
Proof. intros H. destruct s; simpl; rewrite H; reflexivity. Qed.

(** A text that occurs in a string is found. *)
Lemma find_from_occurrence (a needle b : string) (i : Z) :
  0 <= i → 0 <= PyStr.find_from (a +:+ needle +:+ b) needle i.
Proof.
  revert i. induction a as [|c a IH]; intros i Hi.
  - rewrite str_app_nil_l, find_from_startswith by apply startswith_app. exact Hi.
  - rewrite str_app_cons.
    unfold PyStr.find_from; fold PyStr.find_from.
    destruct (PyStr.startswith _ needle); [exact Hi | apply IH; lia].
Qed.

Lemma contains_occurrence (a needle b : string) :
  contains (a +:+ needle +:+ b) needle = true.
Proof. apply Z.leb_le, find_from_occurrence. lia. Qed.

(** A joined text holds each of its parts. *)
Lemma join_occurrence (sep : string) (l1 l2 : list string) (x : string) :
  ∃ a b, PyStr.join sep (l1 ++ x :: l2) = a +:+ x +:+ b.
Proof.
  unfold PyStr.join. induction l1 as [|z l1 IH].
  - destruct l2 as [|y l2].
    + exists "", "". simpl. rewrite str_app_nil_r. reflexivity.
    + exists "", (sep +:+ String.concat sep (y :: l2)). reflexivity.
  - destruct IH as (a & b & IH). exists (z +:+ sep +:+ a), b.
    change ((z :: l1) ++ x :: l2)%list with (z :: (l1 ++ x :: l2))%list.
    destruct (l1 ++ x :: l2)%list as [|y r] eqn:E.
    + destruct l1; discriminate.
    + change (String.concat sep (z :: y :: r))
        with (z +:+ sep +:+ String.concat sep (y :: r)).
      rewrite IH, !str_app_assoc. reflexivity.
Qed.

Lemma dict_get_split (d : dict) (k : string) (v : pyval) :
  dict_get d k = Some v → ∃ l1 l2, d = (l1 ++ (k, v) :: l2)%list.
Proof.
  induction d as [|[k' v'] d IH]; [discriminate|].
  simpl. destruct (String.eqb_spec k' k) as [-> | _].
  - intros [= ->]. exists [], d. reflexivity.
  - intros H. destruct (IH H) as (l1 & l2 & ->). exists ((k', v') :: l1), l2. reflexivity.
Qed.

(** The JSON text of a [dict] holds the text of each of its fields. *)
Lemma dumps_contains_field (d : dict) (k : string) (v : pyval) :
  dict_get d k = Some v →
  contains (Json.dumps (VDict d)) (Json.encode_str k +:+ ": " +:+ Json.dumps v) = true.
Proof.
  intros H. destruct (dict_get_split d k v H) as (l1 & l2 & ->).
  change (contains
            ("{" +:+
             PyStr.join ", "
               (map (fun kv : string * pyval =>
                       let '(k0, x) := kv in Json.encode_str k0 +:+ ": " +:+ Json.dumps x)
                  (l1 ++ (k, v) :: l2))
             +:+ "}")
            (Json.encode_str k +:+ ": " +:+ Json.dumps v) = true).
  rewrite map_app. cbn [map].
  destruct (join_occurrence ", "
              (map (fun kv : string * pyval =>
                      let '(k0, x) := kv in Json.encode_str k0 +:+ ": " +:+ Json.dumps x) l1)
              (map (fun kv : string * pyval =>
                      let '(k0, x) := kv in Json.encode_str k0 +:+ ": " +:+ Json.dumps x) l2)
              (Json.encode_str k +:+ ": " +:+ Json.dumps v)) as (a & b & ->).
  generalize (Json.encode_str k +:+ ": " +:+ Json.dumps v). intros item.
  rewrite !str_app_assoc, <- (str_app_assoc "{" a).
  apply contains_occurrence.
Qed.

Lemma fetch_keeps_mode (self : GumoLogger.t) (w : World) :
  GumoLogger._structured_log_enabled (GumoLogger._fetch_logger_context self w)
  = GumoLogger._structured_log_enabled self.
Proof. rewrite (fetch_logger_context_frame self w). reflexivity. Qed.

(** C10 as stated fails for a logger in text mode.  A manager constructed
    outside the cloud platform mints a text-mode logger; bound to the
    context of the header [abc123/;o=1], whose span id is the empty string,
    its log call writes a line in which no spanId key occurs. *)
Lemma text_mode_log_call_prints_no_span_id :
  let w := mkWorld ∅ "/srv/app" "2020-01-01T00:00:00" "2020-01-01 09:00:00"
             [mkFrameInfo (Some GumoLoggerClass) "/srv/app/gumo/logging/__init__.py"
                          149 "_find_caller";
              mkFrameInfo None "/srv/app/main.py" 35 "root"] None in
  let m := fst (LoggerManager.__init__ w None Logging.initial) in
  let st := snd (LoggerManager.__init__ w None Logging.initial) in
  let line := "[2020-01-01 09:00:00]INFO:main.py:35: hi" in
  ∃ (g g' : GumoLogger.t) (st' : Logging.Store),
    LoggerManager.getLogger m w (Some "abc123/;o=1") = Ok g
    ∧ span_id (GumoLogger._logger_context g) = Some ""
    ∧ GumoLogger.info g w (mkPyObject false "'hi'" "hi") st = Ok (g', st')
    ∧ Logging.output st' Logging.Stdout = [line +:+ PyStr.nl]
    ∧ Logging.output st' Logging.Stderr = []
    ∧ contains line spanId_item = false
    ∧ contains line "spanId" = false.
Proof.
  do 3 eexists.
  split; [reflexivity|]. split; [reflexivity|]. split; [reflexivity|].
  repeat split; vm_compute; reflexivity.
Qed.

(** C10, amended: a header with one ['/'] and nothing between it and the
    end of the header or the first [';'] gives the empty string as span id,
    not null.  A log call through a logger bound to that context builds a
    record that holds the spanId key with the empty string as value and
    hands the formatted record to the sink the level selects; in structured
    mode the line contains the spanId field with the empty value, and a sink
    set up as the manager sets loggers up writes that line to its stream.
    In text mode the line is the one the same call prints with no span id:
    the key is not printed. *)
Theorem empty_span_id_reaches_the_structured_line
    (m : LoggerManager.t) (tid rest : string) :
  PyStr.has_char PyStr.slash tid = false →
  PyStr.has_char PyStr.slash rest = false →
  rest = "" ∨ (∃ o, rest = ";" +:+ o) →
  ∃ ctx,
    LoggerManager.getLoggerContext m (Some (tid +:+ "/" +:+ rest)) = Ok ctx
    ∧ span_id ctx = Some ""
    ∧ span_id ctx ≠ None
    ∧ ∀ (self : GumoLogger.t) (w : World) (level : Z) (msg : PyObject)
        (st : Logging.Store),
        GumoLogger._logger_context (GumoLogger._fetch_logger_context self w) = ctx →
        ∃ line : string,
          let self' := GumoLogger._fetch_logger_context self w in
          let sink := if GumoLogger.ERROR <=? level
                      then GumoLogger._error_logger self'
                      else GumoLogger._default_logger self' in
          let st' := Logging.log sink level line st in
          GumoLogger.log self w level msg st = Ok (self', st')
          ∧ dict_get (GumoLogger._build_log_payload self' w level msg)
                     GumoLogger.spanId_key = Some (VStr "")
          ∧ GumoLogger._formatter self' w (GumoLogger._build_log_payload self' w level msg)
            = Ok line
          ∧ (GumoLogger._structured_log_enabled self = true →
             contains line spanId_item = true)
          ∧ (GumoLogger._structured_log_enabled self = false →
             let silent := GumoLogger.set_logger_context self'
                             (mkLoggerContext (trace ctx) None) in
             GumoLogger._formatter silent w
               (GumoLogger._build_log_payload silent w level msg) = Ok line)
          ∧ ∀ h : Logging.Handler,
              In level severities →
              Logging.loggerDict st !! sink
                = Some (Logging.mkLogger false Logging.DEBUG [h]) →
              Logging.handler_level h = Logging.DEBUG →
              Logging.handler_formatter h = Some (Logging.mkFormatter "%(message)s") →
              Logging.output st' (Logging.handler_stream h) =
              (Logging.output st (Logging.handler_stream h) ++ [line +:+ PyStr.nl])%list.
Proof.
  intros Ht Hr Hrest. unfold LoggerManager.getLoggerContext.
  rewrite (build_one_slash m tid rest Ht Hr).
  rewrite (truncate_options_empty rest Hrest). unfold_result.
  eexists. split; [reflexivity|]. cbn [span_id trace].
  split; [reflexivity|]. split; [discriminate|].
  intros self w level msg st Hctx.
  destruct (log_returns self w level msg st) as (line & Hline & Hlog).
  exists line. cbv zeta.
  split; [exact Hlog|].
  split; [rewrite payload_get_spanId, Hctx; reflexivity|].
  split; [exact Hline|].
  split.
  { intros Hmode. unfold GumoLogger._formatter in Hline.
    rewrite fetch_keeps_mode, Hmode in Hline. injection Hline as <-.
    apply (dumps_contains_field _ GumoLogger.spanId_key (VStr "")).
    rewrite payload_get_spanId, Hctx. reflexivity. }
  split.
  { intros Hmode. unfold GumoLogger._formatter in *.
    rewrite fetch_keeps_mode, Hmode in Hline. simpl GumoLogger._structured_log_enabled.
    rewrite fetch_keeps_mode, Hmode.
    rewrite text_formatter_payload in *. exact Hline. }
  intros h Hlevel Hlogger Hh Hfmt.
  rewrite (log_writes _ h level line st Hlevel Hlogger Hh), Hfmt, format_message_only.
  reflexivity.
Qed.

Lemma empty_span_id_reaches_the_structured_line_witness :
  let w := mkWorld (<["GAE_DEPLOYMENT_ID" := "1"]> (<["GOOGLE_CLOUD_PROJECT" := "myproj"]> ∅))
             "/srv/app" "2020-01-01T00:00:00" "2020-01-01 09:00:00"
             [mkFrameInfo (Some GumoLoggerClass) "/srv/app/gumo/logging/__init__.py"
                          149 "_find_caller";
              mkFrameInfo None "/srv/app/main.py" 35 "root"] None in
  let m := fst (LoggerManager.__init__ w None Logging.initial) in
  let st := snd (LoggerManager.__init__ w None Logging.initial) in
  let bound := mkLoggerContext (Some "projects/myproj/traces/abc123") (Some "") in
  let self := GumoLogger.__init__ w "myproj" "default_logger" "default_logger" bound
                true None in
  LoggerManager.getLogger m w (Some ("abc123" +:+ "/" +:+ ";o=1")) = Ok self
  ∧ ∃ line : string,
      GumoLogger.log self w GumoLogger.INFO (mkPyObject false "'hi'" "hi") st
        = Ok (self, Logging.log "default_logger" GumoLogger.INFO line st)
      ∧ contains line spanId_item = true
      ∧ Logging.output (Logging.log "default_logger" GumoLogger.INFO line st) Logging.Stdout
        = [line +:+ PyStr.nl].
Proof.
  intros w m st bound self.
  split; [vm_compute; reflexivity|].
  destruct (empty_span_id_reaches_the_structured_line m "abc123" ";o=1" eq_refl eq_refl
              (or_intror (ex_intro _ "o=1" eq_refl)))
    as (ctx & Hctx & _ & _ & Hlog).
  assert (Hb : GumoLogger._logger_context (GumoLogger._fetch_logger_context self w) = ctx).
  { vm_compute in Hctx. injection Hctx as <-. reflexivity. }
  destruct (Hlog self w GumoLogger.INFO (mkPyObject false "'hi'" "hi") st Hb)
    as (line & Hcall & _ & _ & Hjson & _ & Hout).
  exists line.
  split; [exact Hcall|]. split; [exact (Hjson eq_refl)|].
  refine (Hout (Logging.mkHandler 0 Logging.Stdout Logging.DEBUG
                  (Some (Logging.mkFormatter "%(message)s"))) _ _ eq_refl eq_refl).
  - unfold severities. simpl. tauto.
  - vm_compute. reflexivity.
Defined.
